(** * jackrabbit / coney: request envelope and versioned dispatch

    A shallow embedding of [jackrabbit/request.py], [coney/exceptions.py]
    and [coney/server.py].  Python values, exceptions and the effects of the
    server (its registry, the calls it makes on the pika channel, the
    records it hands to the logger) are modelled explicitly; every function
    of the source is a definition of the same name in a module named after
    its class. *)

From stdpp Require Import base option gmap strings list pretty.
From Stdlib Require Import ZArith Ascii String.

Local Open Scope string_scope.
Local Set Warnings "-register-all".

(** ** Python values *)

(** Modelled from the spec: [ResponseCodes] ([coney/response_codes.py] is
    imported by the server but is not among the sources).  "A closed
    enumeration with at least: SUCCESS, MALFORMED_REQUEST, METHOD_NOT_FOUND,
    VERSION_NOT_FOUND, UNEXPECTED_DISPATCH_EXCEPTION"; these are the members
    the server names. *)
Inductive ResponseCodes :=
| SUCCESS
| MALFORMED_REQUEST
| METHOD_NOT_FOUND
| VERSION_NOT_FOUND
| UNEXPECTED_DISPATCH_EXCEPTION.

Global Instance ResponseCodes_eq_dec : EqDecision ResponseCodes.
Proof. solve_decision. Defined.

(** The values that travel through the codec: what a serializer produces
    and consumes.  Strings are Python 2 byte strings. *)
Inductive pyval :=
| PyNone
| PyBool (b : bool)
| PyInt (n : Z)
| PyStr (s : string)
| PyList (l : list pyval)
| PyDict (items : list (pyval * pyval))
| PyCode (c : ResponseCodes).

(** Keys of a Python [dict]: the hashable values.  [True] and [1] are the
    same key, as are [False] and [0]. *)
Inductive pykey :=
| KNone
| KInt (n : Z)
| KStr (s : string)
| KCode (c : ResponseCodes).

Global Instance pykey_eq_dec : EqDecision pykey.
Proof. solve_decision. Defined.

Definition pykey_encode (k : pykey) : unit + Z + string + nat :=
  match k with
  | KNone => inl (inl (inl tt))
  | KInt n => inl (inl (inr n))
  | KStr s => inl (inr s)
  | KCode c =>
      inr (match c with
           | SUCCESS => 0
           | MALFORMED_REQUEST => 1
           | METHOD_NOT_FOUND => 2
           | VERSION_NOT_FOUND => 3
           | UNEXPECTED_DISPATCH_EXCEPTION => 4
           end)
  end.

Definition pykey_decode (x : unit + Z + string + nat) : option pykey :=
  match x with
  | inl (inl (inl _)) => Some KNone
  | inl (inl (inr n)) => Some (KInt n)
  | inl (inr s) => Some (KStr s)
  | inr 0 => Some (KCode SUCCESS)
  | inr 1 => Some (KCode MALFORMED_REQUEST)
  | inr 2 => Some (KCode METHOD_NOT_FOUND)
  | inr 3 => Some (KCode VERSION_NOT_FOUND)
  | inr 4 => Some (KCode UNEXPECTED_DISPATCH_EXCEPTION)
  | inr _ => None
  end.

Global Instance pykey_countable : Countable pykey.
Proof.
  apply (inj_countable pykey_encode pykey_decode).
  intros [| n | s | []]; reflexivity.
Defined.

(** [hash(v)]: lists and dicts are unhashable. *)
Definition py_hash (v : pyval) : option pykey :=
  match v with
  | PyNone => Some KNone
  | PyBool b => Some (KInt (if b then 1 else 0))
  | PyInt n => Some (KInt n)
  | PyStr s => Some (KStr s)
  | PyCode c => Some (KCode c)
  | PyList _ | PyDict _ => None
  end.

Definition code_name (c : ResponseCodes) : string :=
  match c with
  | SUCCESS => "SUCCESS"
  | MALFORMED_REQUEST => "MALFORMED_REQUEST"
  | METHOD_NOT_FOUND => "METHOD_NOT_FOUND"
  | VERSION_NOT_FOUND => "VERSION_NOT_FOUND"
  | UNEXPECTED_DISPATCH_EXCEPTION => "UNEXPECTED_DISPATCH_EXCEPTION"
  end.

Definition join (sep : string) (l : list string) : string :=
  match l with
  | [] => ""
  | x :: r => fold_left (fun acc y => acc +:+ sep +:+ y) r x
  end.

(** [repr(v)].  Quotes and unprintable characters inside a string are
    rendered as they are (no escaping); the rendering of a response code is
    its name. *)
Fixpoint py_repr (v : pyval) : string :=
  match v with
  | PyNone => "None"
  | PyBool true => "True"
  | PyBool false => "False"
  | PyInt n => pretty n
  | PyStr s => "'" +:+ s +:+ "'"
  | PyList l => "[" +:+ join ", " (List.map py_repr l) +:+ "]"
  | PyDict items =>
      "{" +:+ join ", " (List.map (fun kv => match kv with
                                         | (k, x) => py_repr k +:+ ": " +:+ py_repr x
                                         end) items) +:+ "}"
  | PyCode c => code_name c
  end.

(** [str(v)] *)
Definition py_str (v : pyval) : string :=
  match v with
  | PyStr s => s
  | _ => py_repr v
  end.

(** [repr] of a tuple of two or more items. *)
Definition py_repr_tuple (l : list pyval) : string :=
  "(" +:+ join ", " (List.map py_repr l) +:+ ")".

(** ** Exceptions *)

(** The exception classes the three files name, and any class a handler
    derives from them.  Every failure in the model is an [Exception]. *)
Inductive exc_class :=
(* builtins *)
| Exception
| ValueError
| TypeError
| KeyError
| AttributeError
(* coney/exceptions.py *)
| ConeyException
| CallTimeoutException
| MalformedRequestException
| RemoteExecErrorException
| RemoteUnhandledExceptionException
(* imported by coney/server.py from .exceptions *)
| DispatchHandlerException
| HandlerNotCallableException
(* class <name>(<base>) declared by a handler's module *)
| UserClass (name : string) (base : exc_class).

Global Instance exc_class_eq_dec : EqDecision exc_class.
Proof.
  intros c; induction c as [| | | | | | | | | | | | name base IH];
    intros [| | | | | | | | | | | | name' base'];
    try (right; discriminate); try (left; reflexivity).
  destruct (decide (name = name')) as [-> | ?]; [| right; congruence].
  destruct (IH base') as [-> | ?]; [left; reflexivity | right; congruence].
Defined.

(** The class followed by its ancestors below [object].
    [DispatchHandlerException] and [HandlerNotCallableException] are not
    declared in [exceptions.py]; they are taken to derive from
    [ConeyException] like every other class of the family. *)
Fixpoint mro (c : exc_class) : list exc_class :=
  match c with
  | Exception => [Exception]
  | ValueError | TypeError | KeyError | AttributeError | ConeyException => [c; Exception]
  | CallTimeoutException | MalformedRequestException | RemoteExecErrorException
  | RemoteUnhandledExceptionException | DispatchHandlerException
  | HandlerNotCallableException => [c; ConeyException; Exception]
  | UserClass _ base => c :: mro base
  end.

Definition issubclass (c d : exc_class) : bool := bool_decide (d ∈ mro c).

(** An exception object: its class, the [args] tuple that
    [BaseException.__new__] records from the constructor's arguments, and
    the instance dictionary that [__init__] fills. *)
Record exn := {
  exc_type : exc_class;
  exc_args : list pyval;
  exc_dict : list (string * pyval)
}.

Definition isinstance (e : exn) (c : exc_class) : bool := issubclass (exc_type e) c.

(** [str(ex)] for a class that does not override [__str__] (none of
    [exceptions.py] does: they override [__repr__] only). *)
Definition py_str_exn (e : exn) : string :=
  match exc_args e with
  | [] => ""
  | [a] => if isinstance e KeyError then py_repr a else py_str a
  | l => py_repr_tuple l
  end.

(** An exception raised by the interpreter, with its message. *)
Definition builtin_error (c : exc_class) (msg : string) : exn :=
  {| exc_type := c; exc_args := [PyStr msg]; exc_dict := [] |}.

Module ConeyExceptions.

(** [MalformedRequestException.__init__(self, serializer_name, request)] *)
Definition MalformedRequestException_init (serializer_name request : string) : exn :=
  {| exc_type := MalformedRequestException;
     exc_args := [PyStr serializer_name; PyStr request];
     exc_dict := [("_serializer_name", PyStr serializer_name); ("_request", PyStr request)] |}.

(** [RemoteExecErrorException.__init__(self, details)] *)
Definition RemoteExecErrorException_init (details : pyval) : exn :=
  {| exc_type := RemoteExecErrorException;
     exc_args := [details];
     exc_dict := [("_details", details)] |}.

(** [RemoteUnhandledExceptionException.__init__(self, details)] *)
Definition RemoteUnhandledExceptionException_init (details : pyval) : exn :=
  {| exc_type := RemoteUnhandledExceptionException;
     exc_args := [details];
     exc_dict := [("_details", details)] |}.

(** Modelled from the spec: [DispatchHandlerException] is raised by the
    server as [DispatchHandlerException(code)] and read back as
    [ex.code], but its declaration is not in [exceptions.py]. *)
Definition DispatchHandlerException_init (code : ResponseCodes) : exn :=
  {| exc_type := DispatchHandlerException;
     exc_args := [PyCode code];
     exc_dict := [("code", PyCode code)] |}.

(** Modelled from the spec: [HandlerNotCallableException()], raised by
    registration "if handler is not invocable". *)
Definition HandlerNotCallableException_init : exn :=
  {| exc_type := HandlerNotCallableException; exc_args := []; exc_dict := [] |}.

End ConeyExceptions.
Import ConeyExceptions.

(** ** Results and the error monad *)

Inductive result (A : Type) :=
| Return (a : A)
| Raise (e : exn).
Arguments Return {A} a.
Arguments Raise {A} e.

Global Instance result_ret : MRet result := fun A a => Return a.
Global Instance result_bind : MBind result :=
  fun A B f m => match m with Return a => f a | Raise e => Raise e end.

(** [try: body / except cls: handler / else: orelse] without state. *)
Definition except {A} (body : result A) (cls : list exc_class) (handler : exn -> result A) : result A :=
  match body with
  | Return a => Return a
  | Raise e => if existsb (isinstance e) cls then handler e else Raise e
  end.

(** [ex.name]: the instance dictionary, else [AttributeError]. *)
Fixpoint assoc (name : string) (d : list (string * pyval)) : option pyval :=
  match d with
  | [] => None
  | (k, v) :: r => if decide (k = name) then Some v else assoc name r
  end.

Definition class_name (c : exc_class) : string :=
  match c with
  | Exception => "Exception"
  | ValueError => "ValueError"
  | TypeError => "TypeError"
  | KeyError => "KeyError"
  | AttributeError => "AttributeError"
  | ConeyException => "ConeyException"
  | CallTimeoutException => "CallTimeoutException"
  | MalformedRequestException => "MalformedRequestException"
  | RemoteExecErrorException => "RemoteExecErrorException"
  | RemoteUnhandledExceptionException => "RemoteUnhandledExceptionException"
  | DispatchHandlerException => "DispatchHandlerException"
  | HandlerNotCallableException => "HandlerNotCallableException"
  | UserClass name _ => name
  end.

Definition py_getattr (ex : exn) (name : string) : result pyval :=
  match assoc name (exc_dict ex) with
  | Some v => Return v
  | None =>
      Raise (builtin_error AttributeError
               ("'" +:+ class_name (exc_type ex) +:+ "' object has no attribute '" +:+ name +:+ "'"))
  end.

(** ** The codec pair

    The serializer and compressor classes are picked by reference when the
    server is constructed ([serializers/], [compressors/]); they are
    collaborators, so each is a record of its operations.  Decoding can
    raise; encoding a value of [pyval] cannot. *)

Module Serializer.
Record t := {
  __name__ : string;
  loads : string -> result pyval;
  dumps : pyval -> string
}.
End Serializer.

Module Compressor.
Record t := {
  compress : string -> string;
  decompress : string -> result string
}.
End Compressor.

(** Modelled from the spec: [NullCompressor], the server's default
    compressor ([compressors/null_compressor.py] is not among the sources):
    "a no-op compressor is a valid implementation (identity transform)". *)
Definition NullCompressor : Compressor.t :=
  {| Compressor.compress := fun s => s;
     Compressor.decompress := fun s => Return s |}.

(** ** Subscription, iteration and calls *)

Definition type_name (v : pyval) : string :=
  match v with
  | PyNone => "NoneType"
  | PyBool _ => "bool"
  | PyInt _ => "int"
  | PyStr _ => "str"
  | PyList _ => "list"
  | PyDict _ => "dict"
  | PyCode _ => "int"
  end.

(** [l[0:3]]: sequences are cut to their first three items; a dict rejects
    the slice as a key; anything else has no [__getitem__]. *)
Definition py_getslice_0_3 (l : pyval) : result pyval :=
  match l with
  | PyList items => Return (PyList (take 3 items))
  | PyStr s => Return (PyStr (String.substring 0 3 s))
  | PyDict _ => Raise (builtin_error TypeError "unhashable type")
  | _ => Raise (builtin_error TypeError
                  ("'" +:+ type_name l +:+ "' object has no attribute '__getitem__'"))
  end.

(** The items an iteration over [v] yields. *)
Definition py_iter (v : pyval) : result (list pyval) :=
  match v with
  | PyList items => Return items
  | PyStr s => Return (List.map (fun c => PyStr (String c EmptyString)) (list_ascii_of_string s))
  | PyDict items => Return (List.map fst items)
  | _ => Raise (builtin_error TypeError ("'" +:+ type_name v +:+ "' object is not iterable"))
  end.

(** [a, b, c = v] *)
Definition py_unpack3 (v : pyval) : result (pyval * pyval * pyval) :=
  items ← py_iter v;
  match items with
  | [a; b; c] => Return (a, b, c)
  | _ :: _ :: _ :: _ :: _ => Raise (builtin_error ValueError "too many values to unpack")
  | _ =>
      Raise (builtin_error ValueError
               ("need more than " +:+ pretty (List.length items) +:+ " values to unpack"))
  end.

(** [bool(v)]: [None], [False], zero and the empty containers are false.
    A response code, whose representation is not in the sources, is taken
    as an object that defines no truth value of its own. *)
Definition py_bool (v : pyval) : bool :=
  match v with
  | PyNone => false
  | PyBool b => b
  | PyInt n => negb (Z.eqb n 0)
  | PyStr s => negb (String.eqb s "")
  | PyList [] => false
  | PyList (_ :: _) => true
  | PyDict [] => false
  | PyDict (_ :: _) => true
  | PyCode _ => true
  end.

(** ** jackrabbit/request.py *)

Module Request.

(** [Request.__init__(self, version, metadata, arguments)] *)
Record t := __init__ {
  _version : pyval;
  _metadata : pyval;
  _arguments : pyval
}.

Definition version (self : t) : pyval := _version self.
Definition arguments (self : t) : pyval := _arguments self.
Definition metadata (self : t) : pyval := _metadata self.

(** [bool(request)]: the class defines neither [__nonzero__] nor
    [__len__], so the default truth value of an instance applies. *)
Definition __nonzero__ (self : t) : bool := true.

(** What a name such as [request] in the dispatcher can be bound to: an
    instance of this class, or a plain value such as [None]. *)
Inductive object :=
| Instance (self : t)
| Plain (v : pyval).

(** [not o] *)
Definition py_not (o : object) : bool :=
  match o with
  | Instance self => negb (__nonzero__ self)
  | Plain v => negb (py_bool v)
  end.

(** [o.name]: the three properties of an instance; a plain value has
    none of them. *)
Definition getattr (o : object) (name : string) : result pyval :=
  match o with
  | Instance self =>
      if String.eqb name "version" then Return (version self)
      else if String.eqb name "arguments" then Return (arguments self)
      else if String.eqb name "metadata" then Return (metadata self)
      else Raise (builtin_error AttributeError
                    ("'Request' object has no attribute '" +:+ name +:+ "'"))
  | Plain v =>
      Raise (builtin_error AttributeError
               ("'" +:+ type_name v +:+ "' object has no attribute '" +:+ name +:+ "'"))
  end.

Definition loads (s : string) (serializer : Serializer.t) : result t :=
  l ← except (Serializer.loads serializer s) [ValueError; TypeError]
        (fun _ => Raise (MalformedRequestException_init (Serializer.__name__ serializer) s));
  '(version, metadata, args) ←
     except (sl ← py_getslice_0_3 l; py_unpack3 sl) [ValueError]
       (fun _ => Raise (MalformedRequestException_init (Serializer.__name__ serializer) s));
  Return (__init__ version metadata args).

Definition dumps (self : t) (serializer : Serializer.t) : string :=
  Serializer.dumps serializer (PyList [version self; metadata self; arguments self]).

(** [loads] as its caller sees it, before anything is known of what it
    returns: the same statements, with the object of the [return]. *)
Definition loads_object (s : string) (serializer : Serializer.t) : result object :=
  l ← except (Serializer.loads serializer s) [ValueError; TypeError]
        (fun _ => Raise (MalformedRequestException_init (Serializer.__name__ serializer) s));
  '(version, metadata, args) ←
     except (sl ← py_getslice_0_3 l; py_unpack3 sl) [ValueError]
       (fun _ => Raise (MalformedRequestException_init (Serializer.__name__ serializer) s));
  Return (Instance (__init__ version metadata args)).

End Request.

(** ** The response envelope *)

Module Response.

(** Modelled from the spec: [Response] ([coney/response.py] is imported by
    the server but is not among the sources).  "fields: value, code
    (default = SUCCESS), details (optional)"; on the wire "an ordered
    tuple [value, code, details]".  The server builds it as
    [Response(value)], [Response(None, code)] and
    [Response(None, code, details)]. *)
Record t := __init__ {
  value : pyval;
  code : pyval;
  details : pyval
}.

Definition dumps (self : t) (serializer : Serializer.t) : string :=
  Serializer.dumps serializer (PyList [value self; code self; details self]).

End Response.

(** ** Handlers, the channel and the logger *)

(** What [register_handler] can be given as [fn]: a function, with the
    name it was defined under and what it does with its named parameters,
    or some value that is no function. *)
Inductive pyobj :=
| PyFunction (name : string) (f : list (string * pyval) -> result pyval)
| PyValue (v : pyval).

(** Modelled from the spec: [utils.is_callable] ([utils] is imported by the
    server but is not among the sources): registration "fails with
    HandlerNotCallable if handler is not invocable". *)
Definition is_callable (fn : pyobj) : bool :=
  match fn with
  | PyFunction _ _ => true
  | PyValue _ => false
  end.

(** The keyword names of a [**] expansion: every key must be a string. *)
Fixpoint keywords (items : list (pyval * pyval)) : option (list (string * pyval)) :=
  match items with
  | [] => Some []
  | (PyStr k, v) :: r => option_map (cons (k, v)) (keywords r)
  | _ :: _ => None
  end.

(** How the interpreter names what is being called in its messages:
    [echo()] for a function, [int object] for a value. *)
Definition called_as (fn : pyobj) : string :=
  match fn with
  | PyFunction name _ => name +:+ "()"
  | PyValue v => type_name v +:+ " object"
  end.

(** The call of [fn] with the items of [kwargs] as its named arguments.
    The expansion is checked before [fn] is entered, and its errors name
    [fn]. *)
Definition py_call_kwargs (fn : pyobj) (kwargs : pyval) : result pyval :=
  match kwargs with
  | PyDict items =>
      match keywords items with
      | Some kw =>
          match fn with
          | PyFunction _ f => f kw
          | PyValue v =>
              Raise (builtin_error TypeError ("'" +:+ type_name v +:+ "' object is not callable"))
          end
      | None => Raise (builtin_error TypeError (called_as fn +:+ " keywords must be strings"))
      end
  | _ =>
      Raise (builtin_error TypeError
               (called_as fn +:+ " argument after ** must be a mapping, not " +:+
                type_name kwargs))
  end.

(** [d[k]] on a version map. *)
Definition py_getitem (d : gmap pykey pyobj) (k : pyval) : result pyobj :=
  match py_hash k with
  | None => Raise (builtin_error TypeError ("unhashable type: '" +:+ type_name k +:+ "'"))
  | Some key =>
      match d !! key with
      | Some fn => Return fn
      | None => Raise {| exc_type := KeyError; exc_args := [k]; exc_dict := [] |}
      end
  end.

(** [k in d] on a version map. *)
Definition py_contains (d : gmap pykey pyobj) (k : pyval) : result bool :=
  match py_hash k with
  | None => Raise (builtin_error TypeError ("unhashable type: '" +:+ type_name k +:+ "'"))
  | Some key => Return (bool_decide (is_Some (d !! key)))
  end.

(** [str.format] on a template whose fields are all [{}]. *)
Fixpoint format_fields (template : string) (args : list pyval) : string :=
  match template with
  | String "{" (String "}" rest) =>
      match args with
      | a :: args' => py_str a +:+ format_fields rest args'
      | [] => format_fields rest []
      end
  | String c rest => String c (format_fields rest args)
  | EmptyString => EmptyString
  end.

(** The [format] method of [receiver]: only a string has it. *)
Definition py_format (receiver : pyval) (args : list pyval) : result pyval :=
  match receiver with
  | PyStr template => Return (PyStr (format_fields template args))
  | _ =>
      Raise (builtin_error AttributeError
               ("'" +:+ type_name receiver +:+ "' object has no attribute 'format'"))
  end.

Module pika.

(** The calls the server makes on its channel. *)
Inductive call :=
| basic_qos (prefetch_count : Z)
| queue_declare (queue : string)
| basic_consume (queue : string)
| basic_publish (exchange routing_key correlation_id body : string)
| basic_ack (delivery_tag : Z).

(** [meth] and [props] of a delivery, as far as the dispatcher reads them. *)
Record Deliver := { delivery_tag : Z }.
Record BasicProperties := { reply_to : string; correlation_id : string }.

End pika.

Module logging.

Inductive level := DEBUG | WARNING.

(** What the server logs.  The texts that depend on [ResponseCodes.describe]
    and on [traceback.format_exc] are kept as the values they are built
    from. *)
Inductive message :=
| text (s : string)
| prefetch_count_set (count : Z)
| dispatch_exception (code : pyval) (raw_body : string)
| exec_error (value details : pyval)
| unhandled_exception (ex : exn)
| replying_with (resp : Response.t).

Definition record : Type := level * message.

End logging.

(** ** coney/server.py *)

Module Server.

(** The attributes of a [Server], with the calls made so far on
    [self._channel] and the records handed so far to the module's [logger]
    (oldest first). *)
Record t := {
  _serializer : Serializer.t;
  _compressor : Compressor.t;
  _channel : list pika.call;
  _queues : gmap string (gmap pykey pyobj);
  logger : list logging.record
}.

(** A method of the server: it runs on the current state and leaves a new
    one, also when it raises. *)
Definition M (A : Type) : Type := t -> result A * t.

Global Instance M_ret : MRet M := fun A a self => (Return a, self).
Global Instance M_bind : MBind M :=
  fun A B f m self =>
    match m self with
    | (Return a, self') => f a self'
    | (Raise e, self') => (Raise e, self')
    end.

Definition get : M t := fun self => (Return self, self).
Definition raise {A} (e : exn) : M A := fun self => (Raise e, self).
Definition lift {A} (r : result A) : M A := fun self => (r, self).

Definition channel_call (c : pika.call) : M unit :=
  fun self =>
    (Return tt,
     {| _serializer := _serializer self; _compressor := _compressor self;
        _channel := _channel self ++ [c]; _queues := _queues self;
        logger := logger self |}).

Definition set_queues (q : gmap string (gmap pykey pyobj)) : M unit :=
  fun self =>
    (Return tt,
     {| _serializer := _serializer self; _compressor := _compressor self;
        _channel := _channel self; _queues := q; logger := logger self |}).

Definition log (lvl : logging.level) (msg : logging.message) : M pyval :=
  fun self =>
    (Return PyNone,
     {| _serializer := _serializer self; _compressor := _compressor self;
        _channel := _channel self; _queues := _queues self;
        logger := logger self ++ [(lvl, msg)] |}).

(** [try: body / except cls: handler / else: orelse] *)
Definition try_except_else {A B} (body : M A) (cls : exc_class)
    (handler : exn -> M B) (orelse : A -> M B) : M B :=
  fun self =>
    match body self with
    | (Return a, self') => orelse a self'
    | (Raise e, self') => if isinstance e cls then handler e self' else (Raise e, self')
    end.

Definition _set_prefetch_count (count : Z) : M unit :=
  _ ← log logging.DEBUG (logging.prefetch_count_set count);
  channel_call (pika.basic_qos count).

(** [Server.__init__]; the connection it opens is the (empty) channel. *)
Definition __init__ (prefetch_count : Z) (serializer : Serializer.t)
    (compressor : Compressor.t) : t :=
  snd (_set_prefetch_count prefetch_count
         {| _serializer := serializer; _compressor := compressor;
            _channel := []; _queues := ∅; logger := [] |}).

(** The outcome of the [try] block of [_dispatcher]: the response it built,
    or the exception that left it together with the line of [server.py]
    it came out of. *)
Inductive traced (A : Type) :=
| Done (a : A)
| RaisedAt (lineno : nat) (ex : exn).
Arguments Done {A} a.
Arguments RaisedAt {A} lineno ex.

Global Instance traced_ret : MRet traced := fun A a => Done a.
Global Instance traced_bind : MBind traced :=
  fun A B f m => match m with Done a => f a | RaisedAt n e => RaisedAt n e end.

Definition at_line {A} (lineno : nat) (r : result A) : traced A :=
  match r with
  | Return a => Done a
  | Raise e => RaisedAt lineno e
  end.

(** Lines 37 to 56: the body of the [try]. *)
Definition _dispatcher_try (self : t) (method_name raw_body : string) : traced Response.t :=
  body ← at_line 37 (Compressor.decompress (_compressor self) raw_body);
  request ← at_line 39 (Request.loads body (_serializer self));
  _ ← (if negb (Request.__nonzero__ request)
       then RaisedAt 41 (DispatchHandlerException_init MALFORMED_REQUEST)
       else Done tt);
  method_versions ←
    match _queues self !! method_name with
    | Some method_versions => Done method_versions
    | None => RaisedAt 46 (DispatchHandlerException_init METHOD_NOT_FOUND)
    end;
  fn ←
    match py_getitem method_versions (Request.version request) with
    | Return fn => Done fn
    | Raise e =>
        if isinstance e KeyError
        then RaisedAt 52 (DispatchHandlerException_init VERSION_NOT_FOUND)
        else RaisedAt 50 e
    end;
  return_value ← at_line 54 (py_call_kwargs fn (Request.arguments request));
  Done (Response.__init__ return_value (PyCode SUCCESS) PyNone).

(** Lines 37 to 56 for any function bound to the name [Request.loads],
    with [request] as whatever object it returns: the truth test of line
    40 and the attribute reads of lines 50 and 54 are those of that
    object. *)
Definition _dispatcher_try_with (loads : string -> Serializer.t -> result Request.object)
    (self : t) (method_name raw_body : string) : traced Response.t :=
  body ← at_line 37 (Compressor.decompress (_compressor self) raw_body);
  request ← at_line 39 (loads body (_serializer self));
  _ ← (if Request.py_not request
       then RaisedAt 41 (DispatchHandlerException_init MALFORMED_REQUEST)
       else Done tt);
  method_versions ←
    match _queues self !! method_name with
    | Some method_versions => Done method_versions
    | None => RaisedAt 46 (DispatchHandlerException_init METHOD_NOT_FOUND)
    end;
  version ← at_line 50 (Request.getattr request "version");
  fn ←
    match py_getitem method_versions version with
    | Return fn => Done fn
    | Raise e =>
        if isinstance e KeyError
        then RaisedAt 52 (DispatchHandlerException_init VERSION_NOT_FOUND)
        else RaisedAt 50 e
    end;
  arguments ← at_line 54 (Request.getattr request "arguments");
  return_value ← at_line 54 (py_call_kwargs fn arguments);
  Done (Response.__init__ return_value (PyCode SUCCESS) PyNone).

(** Lines 57 to 68: the three [except] clauses, tried in order.
    [ResponseCodes.describe] is taken to describe any code. *)
Definition _dispatcher_except (raw_body : string) (ex : exn) : M Response.t :=
  if isinstance ex DispatchHandlerException then
    code ← lift (py_getattr ex "code");
    _ ← log logging.WARNING (logging.dispatch_exception code raw_body);
    code ← lift (py_getattr ex "code");
    mret (Response.__init__ PyNone code PyNone)
  else if isinstance ex RemoteExecErrorException then
    value ← lift (py_getattr ex "value");
    details ← lift (py_getattr ex "details");
    _ ← log logging.DEBUG (logging.exec_error value details);
    value ← lift (py_getattr ex "value");
    details ← lift (py_getattr ex "details");
    mret (Response.__init__ PyNone value details)
  else if isinstance ex Exception then
    _ ← log logging.WARNING (logging.unhandled_exception ex);
    mret (Response.__init__ PyNone (PyCode UNEXPECTED_DISPATCH_EXCEPTION) (PyStr (py_str_exn ex)))
  else raise ex.

(** The consumer callback that [_register_handler method_name] binds to
    the queue; [ch] is the server's channel. *)
Definition _dispatcher (method_name : string) (meth : pika.Deliver)
    (props : pika.BasicProperties) (raw_body : string) : M unit :=
  self ← get;
  resp ← match _dispatcher_try self method_name raw_body with
          | Done resp => mret resp
          | RaisedAt _ ex => _dispatcher_except raw_body ex
          end;
  _ ← log logging.DEBUG (logging.replying_with resp);
  _ ← channel_call
        (pika.basic_publish "" (pika.reply_to props) (pika.correlation_id props)
           (Compressor.compress (_compressor self)
              (Response.dumps resp (_serializer self))));
  channel_call (pika.basic_ack (pika.delivery_tag meth)).

Definition _register_handler (method_name : string) : M unit :=
  _ ← channel_call (pika.queue_declare method_name);
  channel_call (pika.basic_consume method_name).

Definition register_handler (method_name : string) (version : pyval) (fn : pyobj) : M unit :=
  if negb (is_callable fn) then raise HandlerNotCallableException_init
  else
    try_except_else
      (self ← get;
       method_versions ←
         match _queues self !! method_name with
         | Some method_versions => mret method_versions
         | None =>
             raise {| exc_type := KeyError; exc_args := [PyStr method_name]; exc_dict := [] |}
         end;
       present ← lift (py_contains method_versions version);
       if (present : bool) then
         none ← log logging.WARNING (logging.text "Duplicate handler registered for [{}/{}]");
         _ ← lift (py_format none [PyStr method_name; version]);
         mret tt
       else mret tt)
      KeyError
      (fun _ =>
         self ← get;
         match py_hash version with
         | None =>
             raise (builtin_error TypeError ("unhashable type: '" +:+ type_name version +:+ "'"))
         | Some key =>
             _ ← set_queues (<[method_name := {[key := fn]}]> (_queues self));
             _register_handler method_name
         end)
      (fun _ =>
         self ← get;
         match _queues self !! method_name, py_hash version with
         | Some method_versions, Some key =>
             set_queues (<[method_name := <[key := fn]> method_versions]> (_queues self))
         | None, _ =>
             raise {| exc_type := KeyError; exc_args := [PyStr method_name]; exc_dict := [] |}
         | _, None =>
             raise (builtin_error TypeError ("unhashable type: '" +:+ type_name version +:+ "'"))
         end).

(** What the broker hands to a consumer: the queue it was taken from and
    the arguments of the callback. *)
Record delivery := {
  queue : string;
  meth : pika.Deliver;
  props : pika.BasicProperties;
  raw_body : string
}.

(** The queues [basic_consume] has bound a dispatcher to, oldest first. *)
Definition consumers (self : t) : list string :=
  omap (fun c => match c with pika.basic_consume q => Some q | _ => None end) (_channel self).

(** [self._channel.start_consuming()] over the deliveries the broker makes
    while it blocks: each one is passed to the callback that
    [_register_handler] bound to its queue, in order; a queue without a
    consumer delivers nothing; an exception that leaves a callback leaves
    the loop. *)
Fixpoint start_consuming (deliveries : list delivery) : M unit :=
  match deliveries with
  | [] => mret tt
  | d :: rest =>
      self ← get;
      _ ← (if bool_decide (queue d ∈ consumers self)
           then _dispatcher (queue d) (meth d) (props d) (raw_body d)
           else mret tt);
      start_consuming rest
  end.

Definition run (deliveries : list delivery) : M unit := start_consuming deliveries.

End Server.

(** ** A concrete codec and concrete handlers

    A serializer in the style of bencode, extended with tokens for [None],
    the booleans and the response codes, to run the server on. *)

Module Bencode.

Fixpoint encode (v : pyval) : string :=
  match v with
  | PyNone => "n"
  | PyBool true => "t"
  | PyBool false => "f"
  | PyInt n => "i" +:+ pretty n +:+ "e"
  | PyStr s => pretty (String.length s) +:+ ":" +:+ s
  | PyList l => "l" +:+ String.concat "" (List.map encode l) +:+ "e"
  | PyDict items =>
      "d" +:+ String.concat "" (List.map (fun kv => match kv with
                                                  | (k, x) => encode k +:+ encode x
                                                  end) items) +:+ "e"
  | PyCode SUCCESS => "c0"
  | PyCode MALFORMED_REQUEST => "c1"
  | PyCode METHOD_NOT_FOUND => "c2"
  | PyCode VERSION_NOT_FOUND => "c3"
  | PyCode UNEXPECTED_DISPATCH_EXCEPTION => "c4"
  end.

Definition digit_of (c : ascii) : option N :=
  let n := N_of_ascii c in
  if ((48 <=? n) && (n <=? 57))%N then Some (n - 48)%N else None.

Fixpoint read_digits (s : string) (acc : N) : N * string :=
  match s with
  | String c r =>
      match digit_of c with
      | Some d => read_digits r (acc * 10 + d)%N
      | None => (acc, s)
      end
  | EmptyString => (acc, s)
  end.

(** A non-empty run of digits and what follows it. *)
Definition read_number (s : string) : option (N * string) :=
  match s with
  | String c _ =>
      match digit_of c with
      | Some _ => Some (read_digits s 0%N)
      | None => None
      end
  | EmptyString => None
  end.

Fixpoint drop_chars (n : nat) (s : string) : string :=
  match n, s with
  | S n', String _ r => drop_chars n' r
  | _, _ => s
  end.

Fixpoint pair_up (l : list pyval) : option (list (pyval * pyval)) :=
  match l with
  | [] => Some []
  | k :: x :: r => option_map (cons (k, x)) (pair_up r)
  | [_] => None
  end.

Fixpoint decode (fuel : nat) (s : string) : option (pyval * string) :=
  match fuel with
  | O => None
  | S fuel' =>
      match s with
      | String "n" r => Some (PyNone, r)
      | String "t" r => Some (PyBool true, r)
      | String "f" r => Some (PyBool false, r)
      | String "c" (String "0" r) => Some (PyCode SUCCESS, r)
      | String "c" (String "1" r) => Some (PyCode MALFORMED_REQUEST, r)
      | String "c" (String "2" r) => Some (PyCode METHOD_NOT_FOUND, r)
      | String "c" (String "3" r) => Some (PyCode VERSION_NOT_FOUND, r)
      | String "c" (String "4" r) => Some (PyCode UNEXPECTED_DISPATCH_EXCEPTION, r)
      | String "i" (String "-" r) =>
          match read_number r with
          | Some (n, String "e" r') => Some (PyInt (- Z.of_N n), r')
          | _ => None
          end
      | String "i" r =>
          match read_number r with
          | Some (n, String "e" r') => Some (PyInt (Z.of_N n), r')
          | _ => None
          end
      | String "l" r =>
          match decode_items fuel' r with
          | Some (items, r') => Some (PyList items, r')
          | None => None
          end
      | String "d" r =>
          match decode_items fuel' r with
          | Some (items, r') =>
              match pair_up items with
              | Some kvs => Some (PyDict kvs, r')
              | None => None
              end
          | None => None
          end
      | _ =>
          match read_number s with
          | Some (n, String ":" r) =>
              if (N.to_nat n <=? String.length r)%nat
              then Some (PyStr (String.substring 0 (N.to_nat n) r), drop_chars (N.to_nat n) r)
              else None
          | _ => None
          end
      end
  end
with decode_items (fuel : nat) (s : string) : option (list pyval * string) :=
  match fuel with
  | O => None
  | S fuel' =>
      match s with
      | String "e" r => Some ([], r)
      | _ =>
          match decode fuel' s with
          | Some (v, r) =>
              match decode_items fuel' r with
              | Some (vs, r') => Some (v :: vs, r')
              | None => None
              end
          | None => None
          end
      end
  end.

Definition loads (s : string) : result pyval :=
  match decode (2 * String.length s + 2) s with
  | Some (v, EmptyString) => Return v
  | _ => Raise (builtin_error ValueError "not a bencoded value")
  end.

End Bencode.

Definition BencodeSerializer : Serializer.t :=
  {| Serializer.__name__ := "BencodeSerializer";
     Serializer.loads := Bencode.loads;
     Serializer.dumps := Bencode.encode |}.

(** [def echo(x): return x] *)
Definition echo : pyobj :=
  PyFunction "echo" (fun kw =>
    match kw with
    | [("x", x)] => Return x
    | _ => Raise (builtin_error TypeError "echo() takes exactly 1 argument")
    end).

(** [def shout(x): return [x, x]] *)
Definition shout : pyobj :=
  PyFunction "shout" (fun kw =>
    match kw with
    | [("x", x)] => Return (PyList [x; x])
    | _ => Raise (builtin_error TypeError "shout() takes exactly 1 argument")
    end).

(** [def refuse(): raise RemoteExecErrorException('boom')] *)
Definition refuse : pyobj :=
  PyFunction "refuse" (fun _ => Raise (RemoteExecErrorException_init (PyStr "boom"))).

(** [def crash(): raise Exception()] *)
Definition crash : pyobj :=
  PyFunction "crash"
    (fun _ => Raise {| exc_type := Exception; exc_args := []; exc_dict := [] |}).

(** [def lookup(): raise KeyError('missing')] *)
Definition lookup_fails : pyobj :=
  PyFunction "lookup" (fun _ =>
    Raise {| exc_type := KeyError; exc_args := [PyStr "missing"]; exc_dict := [] |}).

(** A server with the default compressor, and what consuming one delivery
    of [raw_body] from the queue of [method_name] does to it. *)
Definition new_server : Server.t := Server.__init__ 1 BencodeSerializer NullCompressor.

Definition a_delivery : pika.Deliver := {| pika.delivery_tag := 7 |}.
Definition a_caller : pika.BasicProperties :=
  {| pika.reply_to := "amq.gen-reply"; pika.correlation_id := "c-1" |}.

(** The server after [register_handler(method_name, version, fn)]. *)
Definition registered (method_name : string) (version : pyval) (fn : pyobj)
    (self : Server.t) : Server.t :=
  snd (Server.register_handler method_name version fn self).

(** A compressor that marks what it compressed with a leading [z] and
    rejects what does not carry the mark. *)
Definition MarkCompressor : Compressor.t :=
  {| Compressor.compress := fun s => String "z" s;
     Compressor.decompress := fun s =>
       match s with
       | String "z" r => Return r
       | _ => Raise (builtin_error ValueError "not compressed")
       end |}.

(** [def decline(): e = RemoteExecErrorException('busy'); e.value = 7;
    e.details = 'busy'; raise e] *)
Definition decline : pyobj :=
  PyFunction "decline" (fun _ =>
    Raise {| exc_type := RemoteExecErrorException;
             exc_args := [PyStr "busy"];
             exc_dict := [("_details", PyStr "busy"); ("value", PyInt 7);
                          ("details", PyStr "busy")] |}).

(** [def forbid(): raise DispatchHandlerException(ResponseCodes.VERSION_NOT_FOUND)] *)
Definition forbid : pyobj :=
  PyFunction "forbid" (fun _ => Raise (DispatchHandlerException_init VERSION_NOT_FOUND)).

(** ** What a run of the dispatcher did *)

(** The bytes published for [resp]: serialized, then compressed. *)
Definition reply_body (self : Server.t) (resp : Response.t) : string :=
  Compressor.compress (Server._compressor self) (Response.dumps resp (Server._serializer self)).

(** [out] is the outcome of a dispatcher run from [self] that returned
    normally, whose last log record announces [resp], and that made exactly
    two calls on the channel: the publication of [resp] to the caller's
    reply address under the caller's correlation id, then the
    acknowledgement of the delivery.  The registry is as it was. *)
Definition replies_then_acks (self : Server.t) (meth : pika.Deliver)
    (props : pika.BasicProperties) (resp : Response.t) (out : result unit * Server.t) : Prop :=
  fst out = Return tt
  /\ Server._channel (snd out) =
       (Server._channel self ++
        [pika.basic_publish "" (pika.reply_to props) (pika.correlation_id props)
           (reply_body self resp);
         pika.basic_ack (pika.delivery_tag meth)])%list
  /\ last (Server.logger (snd out)) = Some (logging.DEBUG, logging.replying_with resp)
  /\ Server._queues (snd out) = Server._queues self.

(** [out] is the outcome of a run from [self] that [ex] left, without any
    call on the channel. *)
Definition propagates (self : Server.t) (ex : exn) (out : result unit * Server.t) : Prop :=
  fst out = Raise ex
  /\ Server._channel (snd out) = Server._channel self
  /\ Server._queues (snd out) = Server._queues self.

(** [Request.loads] fails on [s] with the error the source constructs. *)
Definition decode_fails (serializer : Serializer.t) (s : string) : Prop :=
  Request.loads s serializer =
  Raise (MalformedRequestException_init (Serializer.__name__ serializer) s).

(** ** [__repr__] in coney/exceptions.py *)

Definition ConeyException_repr (self : exn) : result pyval :=
  Return (PyStr "An unspecified error has occurred").

Definition CallTimeoutException_repr (self : exn) : result pyval :=
  Return (PyStr "An RPC call did not return before the time out period").

Definition MalformedRequestException_repr (self : exn) : result pyval :=
  serializer_name ← py_getattr self "_serialier_name";
  request ← py_getattr self "_request";
  py_format (PyStr "{} failed to create a Request from string: {}") [serializer_name; request].

Definition RemoteExecErrorException_repr (self : exn) : result pyval :=
  details ← py_getattr self "_details";
  py_format (PyStr "An error occurred during remote execution: {}") [details].

Definition RemoteUnhandledExceptionException_repr (self : exn) : result pyval :=
  details ← py_getattr self "_details";
  py_format (PyStr "An unhandled exception was raised during remote execution: {}") [details].

(** [BaseException.__repr__]: the class name and the [args] tuple. *)
Definition BaseException_repr (self : exn) : result pyval :=
  Return (PyStr (class_name (exc_type self) +:+
                 match exc_args self with
                 | [a] => "(" +:+ py_repr a +:+ ",)"
                 | l => py_repr_tuple l
                 end)).

(** The [__repr__] an instance of [c] gets: the one of the first class of
    its MRO that defines it.  A class declared by a handler's module
    inherits. *)
Fixpoint repr_method (c : exc_class) : exn -> result pyval :=
  match c with
  | Exception | ValueError | TypeError | KeyError | AttributeError => BaseException_repr
  | ConeyException | DispatchHandlerException | HandlerNotCallableException =>
      ConeyException_repr
  | CallTimeoutException => CallTimeoutException_repr
  | MalformedRequestException => MalformedRequestException_repr
  | RemoteExecErrorException => RemoteExecErrorException_repr
  | RemoteUnhandledExceptionException => RemoteUnhandledExceptionException_repr
  | UserClass _ base => repr_method base
  end.

(** [repr(ex)] *)
Definition py_repr_exn (ex : exn) : result pyval := repr_method (exc_type ex) ex.

(** ** The life of a server *)

(** The handler the registry holds for a method name and a version key. *)
Definition handler_of (self : Server.t) (method_name : string) (key : pykey) : option pyobj :=
  match Server._queues self !! method_name with
  | Some method_versions => method_versions !! key
  | None => None
  end.

(** What is done to a server after its construction: registrations, and
    runs of the consuming loop.  An exception a call raises is the
    caller's to handle; the server keeps the state the call left. *)
Inductive action :=
| Register (method_name : string) (version : pyval) (fn : pyobj)
| Run (deliveries : list Server.delivery).

Definition perform (self : Server.t) (a : action) : Server.t :=
  match a with
  | Register method_name version fn =>
      snd (Server.register_handler method_name version fn self)
  | Run deliveries => snd (Server.run deliveries self)
  end.

Definition after (actions : list action) (self : Server.t) : Server.t :=
  fold_left perform actions self.

(** Every registered method name has exactly one consumer on its queue,
    and no other queue has one. *)
Definition bindings_match_registry (self : Server.t) : Prop :=
  NoDup (Server.consumers self)
  /\ forall q, q ∈ Server.consumers self <-> is_Some (Server._queues self !! q).

(** The calls on the channel that answer [d] with [resp]. *)
Definition answer (self : Server.t) (d : Server.delivery) (resp : Response.t) : list pika.call :=
  [pika.basic_publish "" (pika.reply_to (Server.props d))
     (pika.correlation_id (Server.props d)) (reply_body self resp);
   pika.basic_ack (pika.delivery_tag (Server.meth d))].

(** One turn of the consuming loop. *)
Definition deliver (d : Server.delivery) (self : Server.t) : result unit * Server.t :=
  if bool_decide (Server.queue d ∈ Server.consumers self)
  then Server._dispatcher (Server.queue d) (Server.meth d) (Server.props d)
         (Server.raw_body d) self
  else (Return tt, self).

(** * Properties *)

(** Unfolds the plumbing of a server method. *)
Ltac run_server :=
  unfold Server.try_except_else, mbind, Server.M_bind, Server.get, Server.lift,
    Server.log, mret, Server.M_ret; simpl.

(** Closes a goal about concrete inputs by running the definitions. *)
Ltac by_evaluation := vm_compute; reflexivity.

(** ** Exceptions and the frame of the dispatcher *)

Lemma issubclass_Exception (c : exc_class) : issubclass c Exception = true.
Proof.
  unfold issubclass. apply bool_decide_eq_true.
  induction c; simpl; try (repeat constructor; fail).
  now constructor.
Qed.

Lemma isinstance_Exception (e : exn) : isinstance e Exception = true.
Proof. apply issubclass_Exception. Qed.

(** The [except] clauses touch nothing but the logger. *)
Lemma _dispatcher_except_frame (raw_body : string) (ex : exn) (self : Server.t) :
  let out := Server._dispatcher_except raw_body ex self in
  Server._channel (snd out) = Server._channel self
  /\ Server._queues (snd out) = Server._queues self
  /\ Server._serializer (snd out) = Server._serializer self
  /\ Server._compressor (snd out) = Server._compressor self.
Proof.
  unfold Server._dispatcher_except.
  destruct (isinstance ex DispatchHandlerException).
  { run_server.
    destruct (py_getattr ex "code"); simpl; auto. }
  destruct (isinstance ex RemoteExecErrorException).
  { run_server.
    destruct (py_getattr ex "value"); simpl; auto.
    destruct (py_getattr ex "details"); simpl; auto. }
  destruct (isinstance ex Exception); simpl; auto.
Qed.

(** A run whose [try] block built [resp]. *)
Lemma _dispatcher_done (self : Server.t) (method_name raw_body : string)
    (meth : pika.Deliver) (props : pika.BasicProperties) (resp : Response.t) :
  Server._dispatcher_try self method_name raw_body = Server.Done resp ->
  replies_then_acks self meth props resp
    (Server._dispatcher method_name meth props raw_body self).
Proof.
  intros Htry. unfold replies_then_acks, Server._dispatcher.
  unfold mbind, Server.M_bind, Server.get; simpl. rewrite Htry; simpl.
  repeat split.
  - now rewrite <- app_assoc.
  - apply last_snoc.
Qed.

(** A run whose [try] block was left by [ex], for which an [except] clause
    built [resp]. *)
Lemma _dispatcher_caught (self self' : Server.t) (method_name raw_body : string)
    (meth : pika.Deliver) (props : pika.BasicProperties) (lineno : nat) (ex : exn)
    (resp : Response.t) :
  Server._dispatcher_try self method_name raw_body = Server.RaisedAt lineno ex ->
  Server._dispatcher_except raw_body ex self = (Return resp, self') ->
  replies_then_acks self meth props resp
    (Server._dispatcher method_name meth props raw_body self).
Proof.
  intros Htry Hex. unfold replies_then_acks, Server._dispatcher.
  pose proof (_dispatcher_except_frame raw_body ex self) as Hframe.
  unfold mbind, Server.M_bind, Server.get; simpl. rewrite Htry, Hex in *; simpl in *.
  destruct Hframe as (Hc & Hq & _ & _).
  repeat split; [now rewrite <- app_assoc, Hc | now rewrite last_snoc | exact Hq].
Qed.

(** A run whose [try] block was left by [ex], and whose [except] clause
    was itself left by [ex']. *)
Lemma _dispatcher_escapes (self self' : Server.t) (method_name raw_body : string)
    (meth : pika.Deliver) (props : pika.BasicProperties) (lineno : nat) (ex ex' : exn) :
  Server._dispatcher_try self method_name raw_body = Server.RaisedAt lineno ex ->
  Server._dispatcher_except raw_body ex self = (Raise ex', self') ->
  Server._dispatcher method_name meth props raw_body self = (Raise ex', self').
Proof.
  intros Htry Hex. unfold Server._dispatcher.
  unfold mbind, Server.M_bind, Server.get; simpl. now rewrite Htry, Hex.
Qed.

(** ** The request envelope *)

(** What [Request.loads] does once the serializer has produced a list. *)
Lemma loads_of_list (serializer : Serializer.t) (s : string) (items : list pyval) :
  Serializer.loads serializer s = Return (PyList items) ->
  Request.loads s serializer =
  match items with
  | version :: metadata :: args :: _ => Return (Request.__init__ version metadata args)
  | _ => Raise (MalformedRequestException_init (Serializer.__name__ serializer) s)
  end.
Proof.
  intros Hl. unfold Request.loads. rewrite Hl.
  destruct items as [| v [| m [| a rest]]]; reflexivity.
Qed.

(** C9.  Round trip: when the serializer reads back the list
    [[version, metadata, arguments]] it wrote, [Request.loads] applied to
    the bytes of [Request(version, metadata, arguments).dumps] returns a
    request with the same version, metadata and arguments. *)
Theorem loads_dumps_roundtrip (serializer : Serializer.t) (version metadata arguments : pyval) :
  Serializer.loads serializer
    (Serializer.dumps serializer (PyList [version; metadata; arguments])) =
  Return (PyList [version; metadata; arguments]) ->
  exists request,
    Request.loads (Request.dumps (Request.__init__ version metadata arguments) serializer)
      serializer = Return request
    /\ Request.version request = version
    /\ Request.metadata request = metadata
    /\ Request.arguments request = arguments.
Proof.
  intros Hround. exists (Request.__init__ version metadata arguments).
  split; [| repeat split].
  unfold Request.dumps; simpl.
  now rewrite (loads_of_list _ _ _ Hround).
Qed.

Lemma loads_dumps_roundtrip_witness :
  exists request,
    Request.loads
      (Request.dumps
         (Request.__init__ (PyInt 1) (PyDict []) (PyDict [(PyStr "x", PyInt 42)]))
         BencodeSerializer)
      BencodeSerializer = Return request
    /\ Request.version request = PyInt 1
    /\ Request.metadata request = PyDict []
    /\ Request.arguments request = PyDict [(PyStr "x", PyInt 42)].
Proof.
  apply (loads_dumps_roundtrip BencodeSerializer). vm_compute. reflexivity.
Defined.

(** The typed [Request.loads] is [Request.loads_object] with the instance
    taken out of its result. *)
Lemma loads_object_instance (s : string) (serializer : Serializer.t) :
  Request.loads_object s serializer =
  match Request.loads s serializer with
  | Return request => Return (Request.Instance request)
  | Raise ex => Raise ex
  end.
Proof.
  unfold Request.loads_object, Request.loads.
  destruct (except (Serializer.loads serializer s) _ _) as [l | e]; simpl; [| reflexivity].
  destruct (except (sl ← py_getslice_0_3 l; py_unpack3 sl) _ _) as [[[v m] a] | e];
    reflexivity.
Qed.

(** With [Request.loads] for the loader, the [try] block over objects is
    the [try] block over requests. *)
Lemma _dispatcher_try_with_loads (self : Server.t) (method_name raw_body : string) :
  Server._dispatcher_try_with Request.loads_object self method_name raw_body =
  Server._dispatcher_try self method_name raw_body.
Proof.
  unfold Server._dispatcher_try_with, Server._dispatcher_try.
  destruct (Compressor.decompress _ raw_body) as [body | e]; simpl; [| reflexivity].
  rewrite loads_object_instance.
  destruct (Request.loads body _) as [request | e]; simpl; [| reflexivity].
  destruct (Server._queues self !! method_name) as [method_versions |]; reflexivity.
Qed.

(** The branch of lines 40 and 41 is live for a loader that returns
    [None], or any other false object: that is the reply it was written
    for. *)
Lemma falsy_request_raises_at_line_41
    (loads : string -> Serializer.t -> result Request.object) (self : Server.t)
    (method_name raw_body body : string) (o : Request.object) :
  Compressor.decompress (Server._compressor self) raw_body = Return body ->
  loads body (Server._serializer self) = Return o ->
  Request.py_not o = true ->
  Server._dispatcher_try_with loads self method_name raw_body =
  Server.RaisedAt 41 (DispatchHandlerException_init MALFORMED_REQUEST).
Proof.
  intros Hz Hl Hnot. unfold Server._dispatcher_try_with.
  rewrite Hz; simpl. rewrite Hl; simpl. now rewrite Hnot.
Qed.

(** C10.  [Request.loads] either raises or returns an instance of
    [Request], never [None] or another false object: each of its paths
    ends in a [raise] or in [return Request(...)], and the instance is true
    in a boolean context.  So with [Request.loads] for its loader, no run
    of the [try] block of the dispatcher leaves it through the [raise] of
    line 41. *)
Theorem loads_never_falsy :
  (forall s serializer,
      (exists ex, Request.loads_object s serializer = Raise ex)
      \/ (exists request,
            Request.loads_object s serializer = Return (Request.Instance request)
            /\ Request.py_not (Request.Instance request) = false))
  /\ (forall self method_name raw_body ex,
        Server._dispatcher_try_with Request.loads_object self method_name raw_body <>
        Server.RaisedAt 41 ex).
Proof.
  assert (Hloads : forall s serializer,
             (exists ex, Request.loads_object s serializer = Raise ex)
             \/ (exists request,
                   Request.loads_object s serializer = Return (Request.Instance request)
                   /\ Request.py_not (Request.Instance request) = false)).
  { intros s serializer. unfold Request.loads_object.
    destruct (except (Serializer.loads serializer s) _ _) as [l | e]; simpl;
      [| left; now exists e].
    destruct (except (sl ← py_getslice_0_3 l; py_unpack3 sl) _ _) as [[[v m] a] | e]; simpl;
      [| left; now exists e].
    right. now exists (Request.__init__ v m a). }
  split; [exact Hloads |].
  intros self method_name raw_body ex. unfold Server._dispatcher_try_with.
  destruct (Compressor.decompress _ raw_body) as [body | e]; simpl; [| discriminate].
  destruct (Hloads body (Server._serializer self)) as [[e ->] | (request & -> & Hnot)];
    simpl; [discriminate |].
  destruct (Server._queues self !! method_name) as [method_versions |]; simpl;
    [| discriminate].
  destruct (py_getitem method_versions _) as [fn | e]; simpl.
  - destruct (py_call_kwargs fn _); simpl; discriminate.
  - destruct (isinstance e KeyError); discriminate.
Qed.

(** C4, refuted as stated: a payload that parses into four top-level
    elements is not a decode failure. *)
Lemma loads_accepts_extra_elements :
  ~ (forall serializer s items,
        Serializer.loads serializer s = Return (PyList items) ->
        List.length items <> 3%nat ->
        decode_fails serializer s).
Proof.
  intros Hclaim.
  specialize (Hclaim BencodeSerializer "li1edede5:extrae"
                [PyInt 1; PyDict []; PyDict []; PyStr "extra"]).
  unfold decode_fails in Hclaim.
  assert (Hrun : Request.loads "li1edede5:extrae" BencodeSerializer =
                 Return (Request.__init__ (PyInt 1) (PyDict []) (PyDict [])))
    by by_evaluation.
  rewrite Hrun in Hclaim.
  discriminate Hclaim; [by_evaluation | simpl; lia].
Qed.

(** C4, amended.  [Request.loads] raises [MalformedRequestException] with
    the serializer's name and the payload when the serializer raises a
    [ValueError] or a [TypeError]; when the serializer returns a list, it
    raises that error exactly when the list has fewer than three elements,
    and otherwise returns the request made of the first three elements,
    whatever follows them. *)
Theorem loads_malformed_exactly (serializer : Serializer.t) (s : string) :
  (forall ex,
      Serializer.loads serializer s = Raise ex ->
      isinstance ex ValueError || isinstance ex TypeError = true ->
      decode_fails serializer s)
  /\ (forall items,
        Serializer.loads serializer s = Return (PyList items) ->
        (decode_fails serializer s <-> (List.length items < 3)%nat)
        /\ (forall version metadata args rest,
              items = version :: metadata :: args :: rest ->
              Request.loads s serializer =
              Return (Request.__init__ version metadata args))).
Proof.
  split.
  - intros ex Hl Hkind. unfold decode_fails, Request.loads. rewrite Hl. simpl.
    apply orb_true_iff in Hkind as [-> | ->]; simpl; [reflexivity |].
    now destruct (isinstance ex ValueError).
  - intros items Hl. unfold decode_fails. rewrite (loads_of_list _ _ _ Hl). split.
    + destruct items as [| v [| m [| a rest]]]; simpl; split; intros H;
        try reflexivity; try lia; try discriminate.
    + intros version metadata args rest ->. reflexivity.
Qed.

Lemma loads_malformed_exactly_witness :
  decode_fails BencodeSerializer "not-a-valid-payload"
  /\ decode_fails BencodeSerializer "li1edee"
  /\ Request.loads "li1edede5:extrae" BencodeSerializer =
     Return (Request.__init__ (PyInt 1) (PyDict []) (PyDict [])).
Proof.
  split; [| split].
  - apply (proj1 (loads_malformed_exactly BencodeSerializer "not-a-valid-payload")
             (builtin_error ValueError "not a bencoded value"));
      by_evaluation.
  - apply (proj2 (proj1 (proj2 (loads_malformed_exactly BencodeSerializer "li1edee")
                            [PyInt 1; PyDict []] eq_refl))).
    simpl; lia.
  - apply (proj2 (proj2 (loads_malformed_exactly BencodeSerializer "li1edede5:extrae")
                    [PyInt 1; PyDict []; PyDict []; PyStr "extra"] eq_refl)
             (PyInt 1) (PyDict []) (PyDict []) [PyStr "extra"] eq_refl).
Defined.

(** ** The dispatcher *)

Lemma py_contains_false (d : gmap pykey pyobj) (k : pyval) :
  py_contains d k = Return false ->
  exists key, py_hash k = Some key /\ d !! key = None.
Proof.
  unfold py_contains. destruct (py_hash k) as [key |]; [| discriminate].
  intros [= Hnone]. exists key. split; [reflexivity |].
  apply bool_decide_eq_false in Hnone. now apply eq_None_not_Some.
Qed.

Lemma py_getitem_missing (d : gmap pykey pyobj) (k : pyval) :
  py_contains d k = Return false ->
  py_getitem d k = Raise {| exc_type := KeyError; exc_args := [k]; exc_dict := [] |}.
Proof.
  intros (key & Hhash & Hnone)%py_contains_false.
  unfold py_getitem. now rewrite Hhash, Hnone.
Qed.

(** The [except DispatchHandlerException] clause on an exception the server
    raised itself. *)
Lemma _dispatcher_except_dispatch (raw_body : string) (code : ResponseCodes) (self : Server.t) :
  exists self',
    Server._dispatcher_except raw_body (DispatchHandlerException_init code) self =
    (Return (Response.__init__ PyNone (PyCode code) PyNone), self').
Proof. eexists. reflexivity. Qed.

(** The [except Exception] clause. *)
Lemma _dispatcher_except_other (raw_body : string) (ex : exn) (self : Server.t) :
  isinstance ex DispatchHandlerException = false ->
  isinstance ex RemoteExecErrorException = false ->
  exists self',
    Server._dispatcher_except raw_body ex self =
    (Return (Response.__init__ PyNone (PyCode UNEXPECTED_DISPATCH_EXCEPTION)
               (PyStr (py_str_exn ex))), self').
Proof.
  intros Hd Hr. unfold Server._dispatcher_except.
  rewrite Hd, Hr, isinstance_Exception. eexists. reflexivity.
Qed.

(** C7, refuted as stated: a request whose version is a list decodes well
    and has no entry in the version map of its method, yet the reply is not
    [Response(None, VERSION_NOT_FOUND)]: the lookup raises a [TypeError],
    which [except KeyError] lets through to the last [except] clause. *)
Lemma version_without_entry_not_always_reported :
  ~ (forall self method_name raw_body body meth props request method_versions,
        Compressor.decompress (Server._compressor self) raw_body = Return body ->
        Request.loads body (Server._serializer self) = Return request ->
        Server._queues self !! method_name = Some method_versions ->
        (forall fn, py_getitem method_versions (Request.version request) <> Return fn) ->
        replies_then_acks self meth props
          (Response.__init__ PyNone (PyCode VERSION_NOT_FOUND) PyNone)
          (Server._dispatcher method_name meth props raw_body self)).
Proof.
  intros Hclaim.
  destruct (Hclaim (registered "echo" (PyInt 1) echo new_server)
              "echo" "lli1eededee" "lli1eededee" a_delivery a_caller
              (Request.__init__ (PyList [PyInt 1]) (PyDict []) (PyDict []))
              {[KInt 1 := echo]})
    as (_ & _ & Hlog & _); try (vm_compute; reflexivity).
  - intros fn Hfound. vm_compute in Hfound. discriminate.
  - vm_compute in Hlog. discriminate.
Qed.

(** C7, amended.  For a payload that decodes into a request: when the
    registry has no entry for the dispatcher's method name, the reply is
    [Response(None, METHOD_NOT_FOUND)]; when it has one and the request's
    version is hashable and not in that version map
    ([version in method_versions] is [False]), the reply is
    [Response(None, VERSION_NOT_FOUND)].  Both are published, then the
    delivery is acknowledged. *)
Theorem lookup_miss_reply (self : Server.t) (method_name raw_body body : string)
    (meth : pika.Deliver) (props : pika.BasicProperties) (request : Request.t) :
  Compressor.decompress (Server._compressor self) raw_body = Return body ->
  Request.loads body (Server._serializer self) = Return request ->
  (Server._queues self !! method_name = None ->
   replies_then_acks self meth props
     (Response.__init__ PyNone (PyCode METHOD_NOT_FOUND) PyNone)
     (Server._dispatcher method_name meth props raw_body self))
  /\ (forall method_versions,
        Server._queues self !! method_name = Some method_versions ->
        py_contains method_versions (Request.version request) = Return false ->
        replies_then_acks self meth props
          (Response.__init__ PyNone (PyCode VERSION_NOT_FOUND) PyNone)
          (Server._dispatcher method_name meth props raw_body self)).
Proof.
  intros Hz Hl. split.
  - intros Hq.
    destruct (_dispatcher_except_dispatch raw_body METHOD_NOT_FOUND self) as [self' Hex].
    refine (_dispatcher_caught self self' _ _ _ _ 46 _ _ _ Hex).
    unfold Server._dispatcher_try. rewrite Hz; simpl. rewrite Hl; simpl. now rewrite Hq.
  - intros method_versions Hq Hv.
    destruct (_dispatcher_except_dispatch raw_body VERSION_NOT_FOUND self) as [self' Hex].
    refine (_dispatcher_caught self self' _ _ _ _ 52 _ _ _ Hex).
    unfold Server._dispatcher_try. rewrite Hz; simpl. rewrite Hl; simpl. rewrite Hq; simpl.
    now rewrite (py_getitem_missing _ _ Hv).
Qed.

Lemma lookup_miss_reply_witness :
  replies_then_acks new_server a_delivery a_caller
    (Response.__init__ PyNone (PyCode METHOD_NOT_FOUND) PyNone)
    (Server._dispatcher "echo" a_delivery a_caller "li1eded1:xi42eee" new_server)
  /\ replies_then_acks (registered "echo" (PyInt 1) echo new_server) a_delivery a_caller
       (Response.__init__ PyNone (PyCode VERSION_NOT_FOUND) PyNone)
       (Server._dispatcher "echo" a_delivery a_caller "li2eded1:xi42eee"
          (registered "echo" (PyInt 1) echo new_server)).
Proof.
  split.
  - apply (proj1 (lookup_miss_reply new_server "echo" "li1eded1:xi42eee" "li1eded1:xi42eee"
                    a_delivery a_caller
                    (Request.__init__ (PyInt 1) (PyDict []) (PyDict [(PyStr "x", PyInt 42)]))
                    eq_refl eq_refl)).
    by_evaluation.
  - apply (proj2 (lookup_miss_reply (registered "echo" (PyInt 1) echo new_server)
                    "echo" "li2eded1:xi42eee" "li2eded1:xi42eee" a_delivery a_caller
                    (Request.__init__ (PyInt 2) (PyDict []) (PyDict [(PyStr "x", PyInt 42)]))
                    eq_refl eq_refl) {[KInt 1 := echo]});
      by_evaluation.
Defined.

(** For a request whose version cannot be a key (a list, say), membership
    in the version map is not defined: the lookup raises a [TypeError] that
    the last [except] clause reports. *)
Lemma unhashable_version_reply :
  replies_then_acks (registered "echo" (PyInt 1) echo new_server) a_delivery a_caller
    (Response.__init__ PyNone (PyCode UNEXPECTED_DISPATCH_EXCEPTION)
       (PyStr "unhashable type: 'list'"))
    (Server._dispatcher "echo" a_delivery a_caller "lli1eededee"
       (registered "echo" (PyInt 1) echo new_server)).
Proof. unfold replies_then_acks. repeat split; by_evaluation. Qed.

(** *** From the call of the handler on

    The payload decodes into [request], whose version the registry
    resolves to [fn]; what remains is the call of [fn]. *)

Section HandlerCall.

Variables (self : Server.t) (method_name raw_body body : string).
Variables (meth : pika.Deliver) (props : pika.BasicProperties).
Variables (request : Request.t) (method_versions : gmap pykey pyobj) (fn : pyobj).

Hypothesis decompressed :
  Compressor.decompress (Server._compressor self) raw_body = Return body.
Hypothesis decoded :
  Request.loads body (Server._serializer self) = Return request.
Hypothesis method_found :
  Server._queues self !! method_name = Some method_versions.
Hypothesis version_found :
  py_getitem method_versions (Request.version request) = Return fn.

(** The [try] block up to the call of the handler. *)
Lemma _dispatcher_try_call :
  Server._dispatcher_try self method_name raw_body =
  match py_call_kwargs fn (Request.arguments request) with
  | Return return_value =>
      Server.Done (Response.__init__ return_value (PyCode SUCCESS) PyNone)
  | Raise ex => Server.RaisedAt 54 ex
  end.
Proof.
  unfold Server._dispatcher_try.
  rewrite decompressed; simpl. rewrite decoded; simpl.
  rewrite method_found; simpl. rewrite version_found; simpl.
  now destruct (py_call_kwargs fn _).
Qed.

(** C6.  When the payload decodes into a request, the registry resolves
    its version to [fn], and [fn] called with the request's arguments as
    named parameters returns [v], the dispatcher publishes
    [Response(v)], whose code is [SUCCESS], and acknowledges. *)
Theorem handler_value_is_published (v : pyval) :
  py_call_kwargs fn (Request.arguments request) = Return v ->
  replies_then_acks self meth props (Response.__init__ v (PyCode SUCCESS) PyNone)
    (Server._dispatcher method_name meth props raw_body self).
Proof.
  intros Hcall. apply _dispatcher_done.
  rewrite _dispatcher_try_call. now rewrite Hcall.
Qed.

(** C8, amended.  When the call of the handler raises an exception that is
    neither a [DispatchHandlerException] nor a [RemoteExecErrorException],
    the dispatcher publishes
    [Response(None, UNEXPECTED_DISPATCH_EXCEPTION, str(ex))], where
    [str(ex)] may be empty, and acknowledges the delivery. *)
Theorem unexpected_failure_reply (ex : exn) :
  py_call_kwargs fn (Request.arguments request) = Raise ex ->
  isinstance ex DispatchHandlerException = false ->
  isinstance ex RemoteExecErrorException = false ->
  replies_then_acks self meth props
    (Response.__init__ PyNone (PyCode UNEXPECTED_DISPATCH_EXCEPTION) (PyStr (py_str_exn ex)))
    (Server._dispatcher method_name meth props raw_body self).
Proof.
  intros Hcall Hd Hr.
  destruct (_dispatcher_except_other raw_body ex self Hd Hr) as [self' Hex].
  refine (_dispatcher_caught self self' _ _ _ _ 54 _ _ _ Hex).
  rewrite _dispatcher_try_call. now rewrite Hcall.
Qed.

(** C5.  When the call of the handler raises an instance that
    [RemoteExecErrorException(details)] constructed, the [except] clause
    that should report it reads [ex.value], which the instance does not
    have: an [AttributeError] leaves the dispatcher, nothing is published
    and the delivery is not acknowledged.  The server is left as it was. *)
Theorem exec_error_is_not_reported (details : pyval) :
  py_call_kwargs fn (Request.arguments request) =
    Raise (RemoteExecErrorException_init details) ->
  Server._dispatcher method_name meth props raw_body self =
  (Raise (builtin_error AttributeError
            "'RemoteExecErrorException' object has no attribute 'value'"),
   self).
Proof.
  intros Hcall.
  apply (_dispatcher_escapes self self _ _ _ _ 54 (RemoteExecErrorException_init details)).
  - rewrite _dispatcher_try_call. now rewrite Hcall.
  - reflexivity.
Qed.

End HandlerCall.

Lemma handler_value_is_published_witness :
  replies_then_acks (registered "echo" (PyInt 1) echo new_server) a_delivery a_caller
    (Response.__init__ (PyInt 42) (PyCode SUCCESS) PyNone)
    (Server._dispatcher "echo" a_delivery a_caller "li1eded1:xi42eee"
       (registered "echo" (PyInt 1) echo new_server)).
Proof.
  refine (handler_value_is_published _ "echo" "li1eded1:xi42eee" "li1eded1:xi42eee"
            a_delivery a_caller
            (Request.__init__ (PyInt 1) (PyDict []) (PyDict [(PyStr "x", PyInt 42)]))
            {[KInt 1 := echo]} echo _ _ _ _ (PyInt 42) _);
    by_evaluation.
Defined.

(** C8, refuted as stated: the details of the reply to a failure that
    carries no argument ([raise Exception()]) are the empty string. *)
Lemma unexpected_failure_details_can_be_empty :
  ~ (forall self method_name raw_body body meth props request method_versions fn ex,
        Compressor.decompress (Server._compressor self) raw_body = Return body ->
        Request.loads body (Server._serializer self) = Return request ->
        Server._queues self !! method_name = Some method_versions ->
        py_getitem method_versions (Request.version request) = Return fn ->
        py_call_kwargs fn (Request.arguments request) = Raise ex ->
        isinstance ex RemoteExecErrorException = false ->
        exists details,
          details <> ""
          /\ replies_then_acks self meth props
               (Response.__init__ PyNone (PyCode UNEXPECTED_DISPATCH_EXCEPTION)
                  (PyStr details))
               (Server._dispatcher method_name meth props raw_body self)).
Proof.
  intros Hclaim.
  destruct (Hclaim (registered "crash" (PyInt 1) crash new_server)
              "crash" "li1ededee" "li1ededee" a_delivery a_caller
              (Request.__init__ (PyInt 1) (PyDict []) (PyDict []))
              {[KInt 1 := crash]} crash
              {| exc_type := Exception; exc_args := []; exc_dict := [] |})
    as (details & Hne & _ & _ & Hlog & _); try (by_evaluation).
  vm_compute in Hlog. injection Hlog as Hd. apply Hne. now rewrite <- Hd.
Qed.

Lemma unexpected_failure_reply_witness :
  replies_then_acks (registered "lookup" (PyInt 1) lookup_fails new_server)
    a_delivery a_caller
    (Response.__init__ PyNone (PyCode UNEXPECTED_DISPATCH_EXCEPTION) (PyStr "'missing'"))
    (Server._dispatcher "lookup" a_delivery a_caller "li1ededee"
       (registered "lookup" (PyInt 1) lookup_fails new_server)).
Proof.
  refine (unexpected_failure_reply _ "lookup" "li1ededee" "li1ededee" a_delivery a_caller
            (Request.__init__ (PyInt 1) (PyDict []) (PyDict []))
            {[KInt 1 := lookup_fails]} lookup_fails _ _ _ _
            {| exc_type := KeyError; exc_args := [PyStr "missing"]; exc_dict := [] |} _ _ _);
    by_evaluation.
Defined.

Lemma exec_error_is_not_reported_witness :
  Server._dispatcher "refuse" a_delivery a_caller "li1ededee"
    (registered "refuse" (PyInt 1) refuse new_server) =
  (Raise (builtin_error AttributeError
            "'RemoteExecErrorException' object has no attribute 'value'"),
   registered "refuse" (PyInt 1) refuse new_server).
Proof.
  refine (exec_error_is_not_reported _ "refuse" "li1ededee" "li1ededee" a_delivery a_caller
            (Request.__init__ (PyInt 1) (PyDict []) (PyDict []))
            {[KInt 1 := refuse]} refuse _ _ _ _ (PyStr "boom") _);
    by_evaluation.
Defined.

(** A [RemoteExecErrorException] is reported with its code and details
    only when the instance has been given the two attributes the clause
    reads. *)
Lemma exec_error_with_attributes (self : Server.t) (method_name raw_body : string)
    (meth : pika.Deliver) (props : pika.BasicProperties) (lineno : nat) (ex : exn)
    (value details : pyval) :
  Server._dispatcher_try self method_name raw_body = Server.RaisedAt lineno ex ->
  isinstance ex DispatchHandlerException = false ->
  isinstance ex RemoteExecErrorException = true ->
  py_getattr ex "value" = Return value ->
  py_getattr ex "details" = Return details ->
  replies_then_acks self meth props (Response.__init__ PyNone value details)
    (Server._dispatcher method_name meth props raw_body self).
Proof.
  intros Htry Hd Hr Hvalue Hdetails.
  refine (_dispatcher_caught self _ _ _ _ _ lineno ex _ Htry _).
  unfold Server._dispatcher_except. rewrite Hd, Hr.
  unfold mbind, Server.M_bind, Server.lift, Server.log, mret, Server.M_ret.
  rewrite !Hvalue, !Hdetails. reflexivity.
Qed.

(** C3.  One delivery to a handler that raises
    [RemoteExecErrorException('boom')]: the callback is left by an
    [AttributeError], and the channel has seen neither a publication nor an
    acknowledgement. *)
Theorem exec_error_leaves_delivery_unacknowledged :
  propagates (registered "refuse" (PyInt 1) refuse new_server)
    (builtin_error AttributeError
       "'RemoteExecErrorException' object has no attribute 'value'")
    (Server._dispatcher "refuse" a_delivery a_caller "li1ededee"
       (registered "refuse" (PyInt 1) refuse new_server))
  /\ Server._channel (registered "refuse" (PyInt 1) refuse new_server) =
     [pika.basic_qos 1; pika.queue_declare "refuse"; pika.basic_consume "refuse"].
Proof. unfold propagates. repeat split; by_evaluation. Qed.

(** Every run of the dispatcher either replies and then acknowledges, or
    is left by an exception without a call on the channel; the second
    happens only when an [except] clause reads an attribute that the
    exception it caught does not have. *)
Lemma _dispatcher_outcomes (self : Server.t) (method_name raw_body : string)
    (meth : pika.Deliver) (props : pika.BasicProperties) :
  (exists resp,
      replies_then_acks self meth props resp
        (Server._dispatcher method_name meth props raw_body self))
  \/ (exists lineno ex ex',
        Server._dispatcher_try self method_name raw_body = Server.RaisedAt lineno ex
        /\ (isinstance ex DispatchHandlerException = true
            \/ isinstance ex RemoteExecErrorException = true)
        /\ isinstance ex' AttributeError = true
        /\ propagates self ex' (Server._dispatcher method_name meth props raw_body self)).
Proof.
  destruct (Server._dispatcher_try self method_name raw_body) as [resp | lineno ex] eqn:Htry.
  { left. exists resp. now apply _dispatcher_done. }
  pose proof (_dispatcher_except_frame raw_body ex self) as Hframe.
  destruct (Server._dispatcher_except raw_body ex self) as [[resp | ex'] self'] eqn:Hex.
  { left. exists resp. now apply (_dispatcher_caught self self' _ _ _ _ lineno ex). }
  right. exists lineno, ex, ex'. split; [reflexivity |].
  rewrite (_dispatcher_escapes self self' _ _ meth props lineno ex ex' Htry Hex).
  simpl in Hframe. destruct Hframe as (Hc & Hq & _ & _).
  unfold propagates; simpl.
  enough (Hkind : (isinstance ex DispatchHandlerException = true
                   \/ isinstance ex RemoteExecErrorException = true)
                  /\ isinstance ex' AttributeError = true) by tauto.
  clear Htry Hc Hq. unfold Server._dispatcher_except in Hex.
  unfold py_getattr, mbind, Server.M_bind, Server.lift in Hex.
  destruct (isinstance ex DispatchHandlerException).
  { destruct (assoc "code" (exc_dict ex)); simpl in Hex; [discriminate |].
    injection Hex as <- _. split; [now left | reflexivity]. }
  destruct (isinstance ex RemoteExecErrorException).
  { destruct (assoc "value" (exc_dict ex)); simpl in Hex;
      [| injection Hex as <- _; split; [now right | reflexivity]].
    destruct (assoc "details" (exc_dict ex)); simpl in Hex; [discriminate |].
    injection Hex as <- _. split; [now right | reflexivity]. }
  rewrite isinstance_Exception in Hex. discriminate.
Qed.

(** A payload that the compressor rejects is answered like any other
    failure of the [try] block. *)
Lemma decompress_failure_reply (self : Server.t) (method_name raw_body : string)
    (meth : pika.Deliver) (props : pika.BasicProperties) (ex : exn) :
  Compressor.decompress (Server._compressor self) raw_body = Raise ex ->
  isinstance ex DispatchHandlerException = false ->
  isinstance ex RemoteExecErrorException = false ->
  replies_then_acks self meth props
    (Response.__init__ PyNone (PyCode UNEXPECTED_DISPATCH_EXCEPTION) (PyStr (py_str_exn ex)))
    (Server._dispatcher method_name meth props raw_body self).
Proof.
  intros Hz Hd Hr.
  destruct (_dispatcher_except_other raw_body ex self Hd Hr) as [self' Hex].
  refine (_dispatcher_caught self self' _ _ _ _ 37 _ _ _ Hex).
  unfold Server._dispatcher_try. now rewrite Hz.
Qed.

(** C1.  When the payload decompresses but [Request.loads] fails on it,
    the [MalformedRequestException] is no [DispatchHandlerException]: it is
    caught by the last [except] clause, and the reply that is published is
    [Response(None, UNEXPECTED_DISPATCH_EXCEPTION, str(ex))], with details,
    not [Response(None, MALFORMED_REQUEST)]. *)
Theorem malformed_payload_reply (self : Server.t) (method_name raw_body body : string)
    (meth : pika.Deliver) (props : pika.BasicProperties) :
  Compressor.decompress (Server._compressor self) raw_body = Return body ->
  decode_fails (Server._serializer self) body ->
  replies_then_acks self meth props
    (Response.__init__ PyNone (PyCode UNEXPECTED_DISPATCH_EXCEPTION)
       (PyStr (py_repr_tuple
                 [PyStr (Serializer.__name__ (Server._serializer self)); PyStr body])))
    (Server._dispatcher method_name meth props raw_body self)
  /\ ~ replies_then_acks self meth props
         (Response.__init__ PyNone (PyCode MALFORMED_REQUEST) PyNone)
         (Server._dispatcher method_name meth props raw_body self).
Proof.
  intros Hz Hl.
  set (ex := MalformedRequestException_init
               (Serializer.__name__ (Server._serializer self)) body).
  assert (Hreply : replies_then_acks self meth props
            (Response.__init__ PyNone (PyCode UNEXPECTED_DISPATCH_EXCEPTION)
               (PyStr (py_str_exn ex)))
            (Server._dispatcher method_name meth props raw_body self)).
  { destruct (_dispatcher_except_other raw_body ex self eq_refl eq_refl) as [self' Hex].
    refine (_dispatcher_caught self self' _ _ _ _ 39 _ _ _ Hex).
    unfold Server._dispatcher_try. rewrite Hz; simpl. now rewrite Hl. }
  split; [exact Hreply |].
  intros (_ & _ & Hlog & _). destruct Hreply as (_ & _ & Hlog' & _).
  rewrite Hlog in Hlog'. discriminate.
Qed.

Lemma malformed_payload_reply_witness :
  replies_then_acks (registered "echo" (PyInt 1) echo new_server) a_delivery a_caller
    (Response.__init__ PyNone (PyCode UNEXPECTED_DISPATCH_EXCEPTION)
       (PyStr "('BencodeSerializer', 'not-a-valid-payload')"))
    (Server._dispatcher "echo" a_delivery a_caller "not-a-valid-payload"
       (registered "echo" (PyInt 1) echo new_server))
  /\ ~ replies_then_acks (registered "echo" (PyInt 1) echo new_server) a_delivery a_caller
         (Response.__init__ PyNone (PyCode MALFORMED_REQUEST) PyNone)
         (Server._dispatcher "echo" a_delivery a_caller "not-a-valid-payload"
            (registered "echo" (PyInt 1) echo new_server)).
Proof.
  apply (malformed_payload_reply (registered "echo" (PyInt 1) echo new_server)
           "echo" "not-a-valid-payload" "not-a-valid-payload" a_delivery a_caller);
    by_evaluation.
Defined.

(** ** Registration *)

(** The first registration of a method name creates its version map and
    binds the dispatcher to its queue. *)
Lemma register_handler_new_method (self : Server.t) (method_name : string)
    (version : pyval) (key : pykey) (fn : pyobj) :
  is_callable fn = true ->
  py_hash version = Some key ->
  Server._queues self !! method_name = None ->
  let out := Server.register_handler method_name version fn self in
  fst out = Return tt
  /\ Server._queues (snd out) = <[method_name := {[key := fn]}]> (Server._queues self)
  /\ Server._channel (snd out) =
     (Server._channel self ++
      [pika.queue_declare method_name; pika.basic_consume method_name])%list.
Proof.
  intros Hfn Hhash Hq. unfold Server.register_handler. rewrite Hfn; simpl.
  run_server.
  rewrite Hq; simpl. rewrite Hhash; simpl.
  repeat split. now rewrite <- app_assoc.
Qed.

(** A further version of a registered method name is added to its map. *)
Lemma register_handler_new_version (self : Server.t) (method_name : string)
    (version : pyval) (key : pykey) (method_versions : gmap pykey pyobj) (fn : pyobj) :
  is_callable fn = true ->
  py_hash version = Some key ->
  Server._queues self !! method_name = Some method_versions ->
  method_versions !! key = None ->
  let out := Server.register_handler method_name version fn self in
  fst out = Return tt
  /\ Server._queues (snd out) =
     <[method_name := <[key := fn]> method_versions]> (Server._queues self)
  /\ Server._channel (snd out) = Server._channel self.
Proof.
  intros Hfn Hhash Hq Hv. unfold Server.register_handler. rewrite Hfn; simpl.
  run_server.
  rewrite Hq; simpl. unfold py_contains. rewrite Hhash, Hv; simpl.
  rewrite ?Hq, ?Hhash; simpl. repeat split.
Qed.

(** C2.  A second [register_handler] for a (method name, version) that is
    registered logs the warning, with its placeholders unfilled, and then
    calls [format] on what [logger.warn] returned, which is [None]: an
    [AttributeError] is raised to the caller.  The [else] branch that
    would store [fn] is not reached, so the registry and the channel are
    as they were. *)
Theorem register_handler_duplicate_raises (self : Server.t) (method_name : string)
    (version : pyval) (key : pykey) (method_versions : gmap pykey pyobj) (first fn : pyobj) :
  is_callable fn = true ->
  py_hash version = Some key ->
  Server._queues self !! method_name = Some method_versions ->
  method_versions !! key = Some first ->
  let out := Server.register_handler method_name version fn self in
  fst out = Raise (builtin_error AttributeError "'NoneType' object has no attribute 'format'")
  /\ Server._queues (snd out) = Server._queues self
  /\ Server._channel (snd out) = Server._channel self
  /\ Server.logger (snd out) =
     (Server.logger self ++
      [(logging.WARNING, logging.text "Duplicate handler registered for [{}/{}]")])%list.
Proof.
  intros Hfn Hhash Hq Hv. unfold Server.register_handler. rewrite Hfn; simpl.
  run_server.
  rewrite Hq; simpl. unfold py_contains. rewrite Hhash, Hv; simpl.
  repeat split.
Qed.

Lemma register_handler_duplicate_raises_witness :
  let self := registered "echo" (PyInt 1) echo new_server in
  let out := Server.register_handler "echo" (PyInt 1) shout self in
  fst out = Raise (builtin_error AttributeError "'NoneType' object has no attribute 'format'")
  /\ Server._queues (snd out) = Server._queues self
  /\ Server._channel (snd out) = Server._channel self
  /\ Server.logger (snd out) =
     (Server.logger self ++
      [(logging.WARNING, logging.text "Duplicate handler registered for [{}/{}]")])%list.
Proof.
  apply (register_handler_duplicate_raises (registered "echo" (PyInt 1) echo new_server)
           "echo" (PyInt 1) (KInt 1) {[KInt 1 := echo]} echo shout);
    by_evaluation.
Defined.

(** After the rejected second registration the first handler still
    answers: [echo] replies 42 where [shout] would reply [[42, 42]]. *)
Lemma first_handler_still_dispatched :
  let self := registered "echo" (PyInt 1) shout (registered "echo" (PyInt 1) echo new_server) in
  Server._queues self !! "echo" = Some {[KInt 1 := echo]}
  /\ replies_then_acks self a_delivery a_caller
       (Response.__init__ (PyInt 42) (PyCode SUCCESS) PyNone)
       (Server._dispatcher "echo" a_delivery a_caller "li1eded1:xi42eee" self).
Proof. unfold replies_then_acks. repeat split; by_evaluation. Qed.

(** Registering something that is no function is refused before the
    registry is looked at. *)
Lemma register_handler_not_callable (self : Server.t) (method_name : string)
    (version v : pyval) :
  Server.register_handler method_name version (PyValue v) self =
  (Raise HandlerNotCallableException_init, self).
Proof. reflexivity. Qed.

(** * Further properties *)

(** ** [Request.loads]: how it fails *)

(** A value that [l[0:3]] accepts. *)
Lemma py_getslice_0_3_sequence (l sl : pyval) :
  py_getslice_0_3 l = Return sl ->
  (exists items, l = PyList items /\ sl = PyList (take 3 items))
  \/ (exists s, l = PyStr s /\ sl = PyStr (String.substring 0 3 s)).
Proof.
  destruct l; simpl; try discriminate; intros [= <-]; [right | left]; eauto.
Qed.

(** Unpacking a list or a string raises nothing but [ValueError]. *)
Lemma py_unpack3_sequence_error (sl : pyval) (ex : exn) :
  (exists items, sl = PyList items) \/ (exists s, sl = PyStr s) ->
  py_unpack3 sl = Raise ex ->
  isinstance ex ValueError = true.
Proof.
  intros [[items ->] | [s ->]]; unfold py_unpack3; simpl.
  - destruct items as [| a [| b [| c [| d rest]]]]; intros [= <-]; reflexivity.
  - destruct (List.map _ _) as [| a [| b [| c [| d rest]]]]; intros [= <-]; reflexivity.
Qed.

Lemma loads_failure_cases (serializer : Serializer.t) (s : string) (ex : exn) :
  Request.loads s serializer = Raise ex ->
  ex = MalformedRequestException_init (Serializer.__name__ serializer) s
  \/ (Serializer.loads serializer s = Raise ex
      /\ isinstance ex ValueError = false /\ isinstance ex TypeError = false)
  \/ (exists l,
        Serializer.loads serializer s = Return l
        /\ py_getslice_0_3 l = Raise ex
        /\ exc_type ex = TypeError).
Proof.
  unfold Request.loads.
  destruct (Serializer.loads serializer s) as [l | e] eqn:Hl; simpl.
  - destruct (py_getslice_0_3 l) as [sl | e] eqn:Hslice; simpl.
    + destruct (py_unpack3 sl) as [[[v m] a] | e] eqn:Hunpack; simpl; [discriminate |].
      rewrite (py_unpack3_sequence_error sl e); [intros [= <-]; now left | | exact Hunpack].
      apply py_getslice_0_3_sequence in Hslice as [(items & _ & ->) | (str & _ & ->)]; eauto.
    + assert (Hty : exc_type e = TypeError) by (destruct l; simpl in Hslice; now inversion Hslice).
      replace (isinstance e ValueError) with false
        by (unfold isinstance; now rewrite Hty).
      simpl. intros [= <-]. right; right. exists l. auto.
  - destruct (isinstance e ValueError) eqn:Hv; simpl; [intros [= <-]; now left |].
    destruct (isinstance e TypeError) eqn:Ht; simpl; intros [= <-]; [now left |].
    right; left. auto.
Qed.

(** Every failure of [Request.loads] is one of three: the
    [MalformedRequestException] it constructs; an exception of the
    serializer that is neither a [ValueError] nor a [TypeError], passed on
    as it is; or the [TypeError] of slicing a parsed value that is no
    sequence. *)
Theorem loads_failures (serializer : Serializer.t) (s : string) (ex : exn) :
  Request.loads s serializer = Raise ex ->
  ex = MalformedRequestException_init (Serializer.__name__ serializer) s
  \/ (Serializer.loads serializer s = Raise ex
      /\ isinstance ex ValueError = false /\ isinstance ex TypeError = false)
  \/ (exists l,
        Serializer.loads serializer s = Return l
        /\ py_getslice_0_3 l = Raise ex
        /\ exc_type ex = TypeError).
Proof.
  unfold Request.loads.
  destruct (Serializer.loads serializer s) as [l | e] eqn:Hl; simpl.
  - destruct (py_getslice_0_3 l) as [sl | e] eqn:Hslice; simpl.
    + destruct (py_unpack3 sl) as [[[v m] a] | e] eqn:Hunpack; simpl; [discriminate |].
      rewrite (py_unpack3_sequence_error sl e); [intros [= <-]; now left | | exact Hunpack].
      apply py_getslice_0_3_sequence in Hslice as [(items & _ & ->) | (str & _ & ->)]; eauto.
    + assert (Hty : exc_type e = TypeError) by (destruct l; simpl in Hslice; now inversion Hslice).
      replace (isinstance e ValueError) with false
        by (unfold isinstance; now rewrite Hty).
      simpl. intros [= <-]. right; right. exists l. auto.
  - destruct (isinstance e ValueError) eqn:Hv; simpl; [intros [= <-]; now left |].
    destruct (isinstance e TypeError) eqn:Ht; simpl; intros [= <-]; [now left |].
    right; left. auto.
Qed.

Lemma loads_failures_witness :
  builtin_error TypeError "'int' object has no attribute '__getitem__'" =
    MalformedRequestException_init "BencodeSerializer" "i5e"
  \/ (Bencode.loads "i5e" =
        Raise (builtin_error TypeError "'int' object has no attribute '__getitem__'")
      /\ isinstance (builtin_error TypeError "'int' object has no attribute '__getitem__'")
           ValueError = false
      /\ isinstance (builtin_error TypeError "'int' object has no attribute '__getitem__'")
           TypeError = false)
  \/ (exists l,
        Bencode.loads "i5e" = Return l
        /\ py_getslice_0_3 l =
             Raise (builtin_error TypeError "'int' object has no attribute '__getitem__'")
        /\ exc_type (builtin_error TypeError "'int' object has no attribute '__getitem__'") =
             TypeError).
Proof.
  apply (loads_failures BencodeSerializer "i5e"). by_evaluation.
Defined.

(** [Request.loads] never raises a [ValueError]: the serializer's are
    turned into [MalformedRequestException], and so is the one of the
    unpacking. *)
Theorem loads_never_raises_ValueError (serializer : Serializer.t) (s : string) (ex : exn) :
  Request.loads s serializer = Raise ex ->
  isinstance ex ValueError = false.
Proof.
  intros [-> | [(_ & Hv & _) | (l & _ & _ & Hty)]]%loads_failure_cases.
  - reflexivity.
  - exact Hv.
  - unfold isinstance. now rewrite Hty.
Qed.

Lemma loads_never_raises_ValueError_witness :
  isinstance (MalformedRequestException_init "BencodeSerializer" "li1edee") ValueError = false.
Proof.
  apply (loads_never_raises_ValueError BencodeSerializer "li1edee"). by_evaluation.
Defined.

(** A payload that parses into something that is neither a list nor a
    string ([None], a boolean, an integer, a dict) is not reported as
    malformed: [Request.loads] raises the [TypeError] of the slice. *)
Theorem loads_unsliceable_raises_TypeError (serializer : Serializer.t) (s : string)
    (l : pyval) :
  Serializer.loads serializer s = Return l ->
  (forall items, l <> PyList items) ->
  (forall str, l <> PyStr str) ->
  exists ex,
    Request.loads s serializer = Raise ex
    /\ exc_type ex = TypeError
    /\ isinstance ex MalformedRequestException = false.
Proof.
  intros Hl Hlist Hstr. unfold Request.loads. rewrite Hl; simpl.
  destruct l; simpl; try (eexists; repeat split; fail).
  - now destruct (Hstr s0).
  - now destruct (Hlist l).
Qed.

Lemma loads_unsliceable_raises_TypeError_witness :
  exists ex,
    Request.loads "de" BencodeSerializer = Raise ex
    /\ exc_type ex = TypeError
    /\ isinstance ex MalformedRequestException = false.
Proof.
  apply (loads_unsliceable_raises_TypeError BencodeSerializer "de" (PyDict []));
    [by_evaluation | discriminate | discriminate].
Defined.

(** A payload that parses into a string is unpacked character by
    character: with fewer than three characters it is malformed, with
    three or more it yields a request made of its first three
    characters. *)
Theorem loads_of_string (serializer : Serializer.t) (s str : string) :
  Serializer.loads serializer s = Return (PyStr str) ->
  (String.length str < 3 -> decode_fails serializer s)
  /\ (forall a b c rest,
        str = String a (String b (String c rest)) ->
        Request.loads s serializer =
        Return (Request.__init__ (PyStr (String a EmptyString))
                  (PyStr (String b EmptyString)) (PyStr (String c EmptyString)))).
Proof.
  intros Hl. unfold decode_fails, Request.loads. rewrite Hl; simpl. split.
  - destruct str as [| a [| b [| c rest]]]; simpl; intros Hlen; try reflexivity; lia.
  - intros a b c rest ->. now destruct rest.
Qed.

Lemma loads_of_string_witness :
  (String.length "abcd" < 3 -> decode_fails BencodeSerializer "4:abcd")
  /\ (forall a b c rest,
        "abcd" = String a (String b (String c rest)) ->
        Request.loads "4:abcd" BencodeSerializer =
        Return (Request.__init__ (PyStr (String a EmptyString))
                  (PyStr (String b EmptyString)) (PyStr (String c EmptyString)))).
Proof.
  apply (loads_of_string BencodeSerializer "4:abcd" "abcd"). by_evaluation.
Defined.

(** ** [__repr__] of the exceptions *)

Lemma append_empty (s : string) : s +:+ "" = s.
Proof.
  induction s as [| c s IH]; [reflexivity |].
  change (String c (s +:+ "") = String c s). now rewrite IH.
Qed.

Lemma repr_method_inherited (names : list string) (c : exc_class) :
  repr_method (fold_right UserClass c names) = repr_method c.
Proof. induction names as [| name names IH]; [reflexivity | exact IH]. Qed.

(** [repr] of a [MalformedRequestException], or of an instance of any
    class derived from it that keeps its constructor and [__repr__]: the
    method reads [self._serialier_name], which no instance has, and raises
    [AttributeError].  [str] of the same instance is the rendering of its
    two arguments. *)
Theorem malformed_request_repr_raises (names : list string) (serializer_name request : string) :
  let ex := {| exc_type := fold_right UserClass MalformedRequestException names;
               exc_args := exc_args (MalformedRequestException_init serializer_name request);
               exc_dict := exc_dict (MalformedRequestException_init serializer_name request) |} in
  py_repr_exn ex =
    Raise (builtin_error AttributeError
             ("'" +:+ class_name (exc_type ex) +:+
              "' object has no attribute '_serialier_name'"))
  /\ py_str_exn ex = py_repr_tuple [PyStr serializer_name; PyStr request].
Proof.
  simpl. split; [| reflexivity].
  unfold py_repr_exn; simpl. now rewrite repr_method_inherited.
Qed.

(** [repr] of the two remote-execution exceptions is their fixed sentence
    followed by [str] of the details they were constructed with. *)
Theorem remote_exception_repr (details : pyval) :
  py_repr_exn (RemoteExecErrorException_init details) =
    Return (PyStr ("An error occurred during remote execution: " +:+ py_str details))
  /\ py_repr_exn (RemoteUnhandledExceptionException_init details) =
       Return (PyStr ("An unhandled exception was raised during remote execution: "
                      +:+ py_str details)).
Proof.
  split; cbv -[py_str String.append]; now rewrite append_empty.
Qed.

(** ** Registration *)

(** All that [register_handler] can do: leave the registry and the channel
    as they are and raise; create the version map of a new method name and
    bind its queue; or add a new version to an existing map. *)
Lemma register_handler_cases (method_name : string) (version : pyval) (fn : pyobj)
    (self : Server.t) :
  let out := Server.register_handler method_name version fn self in
  Server._serializer (snd out) = Server._serializer self
  /\ Server._compressor (snd out) = Server._compressor self
  /\ ((exists ex,
          fst out = Raise ex
          /\ Server._queues (snd out) = Server._queues self
          /\ Server._channel (snd out) = Server._channel self)
      \/ (exists key,
            py_hash version = Some key
            /\ Server._queues self !! method_name = None
            /\ fst out = Return tt
            /\ Server._queues (snd out) =
               <[method_name := {[key := fn]}]> (Server._queues self)
            /\ Server._channel (snd out) =
               (Server._channel self ++
                [pika.queue_declare method_name; pika.basic_consume method_name])%list)
      \/ (exists key method_versions,
            py_hash version = Some key
            /\ Server._queues self !! method_name = Some method_versions
            /\ method_versions !! key = None
            /\ fst out = Return tt
            /\ Server._queues (snd out) =
               <[method_name := <[key := fn]> method_versions]> (Server._queues self)
            /\ Server._channel (snd out) = Server._channel self)).
Proof.
  unfold Server.register_handler.
  destruct (is_callable fn) eqn:Hfn; simpl; [| eauto 10].
  run_server.
  destruct (Server._queues self !! method_name) as [method_versions |] eqn:Hq; simpl.
  - unfold py_contains.
    destruct (py_hash version) as [key |] eqn:Hhash; simpl; [| eauto 10].
    destruct (method_versions !! key) as [first |] eqn:Hv; simpl; [eauto 10 |].
    rewrite Hq; simpl. do 2 (split; [reflexivity |]).
    right; right. exists key, method_versions. auto 10.
  - destruct (py_hash version) as [key |] eqn:Hhash; simpl; [| eauto 10].
    do 2 (split; [reflexivity |]). right; left. exists key.
    repeat split. now rewrite <- app_assoc.
Qed.

(** Whatever it is called with and however it ends, [register_handler]
    keeps every handler the registry holds: none is removed, none is
    replaced. *)
Theorem register_handler_keeps_handlers (method_name : string) (version : pyval)
    (fn : pyobj) (self : Server.t) (method_name' : string) (key' : pykey) (fn' : pyobj) :
  handler_of self method_name' key' = Some fn' ->
  handler_of (snd (Server.register_handler method_name version fn self)) method_name' key' =
  Some fn'.
Proof.
  intros Hheld. unfold handler_of in *.
  destruct (register_handler_cases method_name version fn self)
    as (_ & _ & [(ex & _ & -> & _) | [(key & _ & Hq & _ & -> & _)
                                     | (key & mv & _ & Hq & Hv & _ & -> & _)]]).
  - exact Hheld.
  - destruct (decide (method_name = method_name')) as [<- | Hne].
    + now rewrite Hq in Hheld.
    + now rewrite lookup_insert_ne.
  - destruct (decide (method_name = method_name')) as [<- | Hne].
    + rewrite lookup_insert_eq. rewrite Hq in Hheld.
      destruct (decide (key = key')) as [<- | Hk].
      * now rewrite Hv in Hheld.
      * now rewrite lookup_insert_ne.
    + now rewrite lookup_insert_ne.
Qed.

Lemma register_handler_keeps_handlers_witness :
  handler_of
    (snd (Server.register_handler "echo" (PyInt 2) shout
            (registered "echo" (PyInt 1) echo new_server)))
    "echo" (KInt 1) = Some echo.
Proof.
  apply (register_handler_keeps_handlers "echo" (PyInt 2) shout
           (registered "echo" (PyInt 1) echo new_server) "echo" (KInt 1) echo).
  by_evaluation.
Defined.

(** [register_handler(method_name, version, fn)] touches no entry of the
    registry but the one of [method_name] and [version]. *)
Theorem register_handler_frame (method_name : string) (version : pyval)
    (fn : pyobj) (self : Server.t) (method_name' : string) (key' : pykey) :
  method_name' <> method_name \/ py_hash version <> Some key' ->
  handler_of (snd (Server.register_handler method_name version fn self)) method_name' key' =
  handler_of self method_name' key'.
Proof.
  intros Hother. unfold handler_of.
  destruct (register_handler_cases method_name version fn self)
    as (_ & _ & [(ex & _ & -> & _) | [(key & Hhash & Hq & _ & -> & _)
                                     | (key & mv & Hhash & Hq & Hv & _ & -> & _)]]).
  - reflexivity.
  - destruct (decide (method_name = method_name')) as [<- | Hne].
    + rewrite lookup_insert_eq, Hq.
      apply lookup_singleton_ne. intros ->. destruct Hother; congruence.
    + now rewrite lookup_insert_ne.
  - destruct (decide (method_name = method_name')) as [<- | Hne].
    + rewrite lookup_insert_eq, Hq.
      apply lookup_insert_ne. intros ->. destruct Hother; congruence.
    + now rewrite lookup_insert_ne.
Qed.

Lemma register_handler_frame_witness :
  handler_of
    (snd (Server.register_handler "shout" (PyInt 1) shout
            (registered "echo" (PyInt 1) echo new_server)))
    "echo" (KInt 2) =
  handler_of (registered "echo" (PyInt 1) echo new_server) "echo" (KInt 2).
Proof.
  apply (register_handler_frame "shout" (PyInt 1) shout
           (registered "echo" (PyInt 1) echo new_server) "echo" (KInt 2)).
  left. discriminate.
Defined.

(** A version that cannot be a dictionary key (a list, a dict) makes
    [register_handler] raise a [TypeError], for a new method name as for a
    registered one; nothing is registered and no queue is declared. *)
Theorem register_handler_unhashable_version (method_name : string) (version : pyval)
    (fn : pyobj) (self : Server.t) :
  is_callable fn = true ->
  py_hash version = None ->
  let out := Server.register_handler method_name version fn self in
  fst out =
    Raise (builtin_error TypeError ("unhashable type: '" +:+ type_name version +:+ "'"))
  /\ Server._queues (snd out) = Server._queues self
  /\ Server._channel (snd out) = Server._channel self.
Proof.
  intros Hfn Hhash. unfold Server.register_handler. rewrite Hfn; simpl. run_server.
  destruct (Server._queues self !! method_name) as [method_versions |]; simpl.
  - unfold py_contains. rewrite Hhash; simpl. auto.
  - rewrite Hhash; simpl. auto.
Qed.

Lemma register_handler_unhashable_version_witness :
  let out := Server.register_handler "echo" (PyList [PyInt 1]) echo new_server in
  fst out = Raise (builtin_error TypeError "unhashable type: 'list'")
  /\ Server._queues (snd out) = Server._queues new_server
  /\ Server._channel (snd out) = Server._channel new_server.
Proof.
  apply (register_handler_unhashable_version "echo" (PyList [PyInt 1]) echo new_server);
    reflexivity.
Defined.

(** A registration that returns makes the handler the one that answers: a
    delivery on the method's queue whose request carries the same version
    is replied to with what [fn] returns. *)
Theorem registered_handler_is_dispatched (method_name : string) (version : pyval)
    (fn : pyobj) (self : Server.t) (meth : pika.Deliver) (props : pika.BasicProperties)
    (raw_body body : string) (request : Request.t) (v : pyval) :
  fst (Server.register_handler method_name version fn self) = Return tt ->
  Compressor.decompress (Server._compressor self) raw_body = Return body ->
  Request.loads body (Server._serializer self) = Return request ->
  py_hash (Request.version request) = py_hash version ->
  py_call_kwargs fn (Request.arguments request) = Return v ->
  replies_then_acks (snd (Server.register_handler method_name version fn self)) meth props
    (Response.__init__ v (PyCode SUCCESS) PyNone)
    (Server._dispatcher method_name meth props raw_body
       (snd (Server.register_handler method_name version fn self))).
Proof.
  intros Hok Hz Hl Hsame Hcall.
  destruct (register_handler_cases method_name version fn self)
    as (Hser & Hcomp & Hcases).
  set (self' := snd (Server.register_handler method_name version fn self)) in *.
  assert (Hheld : exists key method_versions,
             py_hash version = Some key
             /\ Server._queues self' !! method_name = Some method_versions
             /\ method_versions !! key = Some fn).
  { destruct Hcases as [(ex & Hraise & _) | [(key & Hhash & _ & _ & Hq & _)
                                            | (key & mv & Hhash & _ & _ & _ & Hq & _)]].
    - rewrite Hraise in Hok. discriminate.
    - exists key, {[key := fn]}. rewrite Hq, lookup_insert_eq, lookup_singleton_eq. auto.
    - exists key, (<[key := fn]> mv). rewrite Hq, !lookup_insert_eq. auto. }
  destruct Hheld as (key & method_versions & Hhash & Hq & Hv).
  apply _dispatcher_done.
  rewrite (_dispatcher_try_call self' method_name raw_body body request method_versions fn).
  - now rewrite Hcall.
  - now rewrite Hcomp.
  - now rewrite Hser.
  - exact Hq.
  - unfold py_getitem. now rewrite Hsame, Hhash, Hv.
Qed.

Lemma registered_handler_is_dispatched_witness :
  replies_then_acks (snd (Server.register_handler "shout" (PyInt 1) shout new_server))
    a_delivery a_caller
    (Response.__init__ (PyList [PyInt 42; PyInt 42]) (PyCode SUCCESS) PyNone)
    (Server._dispatcher "shout" a_delivery a_caller "ltded1:xi42eee"
       (snd (Server.register_handler "shout" (PyInt 1) shout new_server))).
Proof.
  apply (registered_handler_is_dispatched "shout" (PyInt 1) shout new_server
           a_delivery a_caller "ltded1:xi42eee" "ltded1:xi42eee"
           (Request.__init__ (PyBool true) (PyDict []) (PyDict [(PyStr "x", PyInt 42)]))
           (PyList [PyInt 42; PyInt 42]));
    by_evaluation.
Defined.

Lemma register_handler_new_method_witness :
  let out := Server.register_handler "echo" (PyInt 1) echo new_server in
  fst out = Return tt
  /\ Server._queues (snd out) = <["echo" := {[KInt 1 := echo]}]> (Server._queues new_server)
  /\ Server._channel (snd out) =
     (Server._channel new_server ++
      [pika.queue_declare "echo"; pika.basic_consume "echo"])%list.
Proof.
  apply (register_handler_new_method new_server "echo" (PyInt 1) (KInt 1) echo);
    by_evaluation.
Defined.

Lemma register_handler_new_version_witness :
  let out := Server.register_handler "echo" (PyInt 2) shout
               (registered "echo" (PyInt 1) echo new_server) in
  fst out = Return tt
  /\ Server._queues (snd out) =
     <["echo" := <[KInt 2 := shout]> {[KInt 1 := echo]}]>
       (Server._queues (registered "echo" (PyInt 1) echo new_server))
  /\ Server._channel (snd out) =
     Server._channel (registered "echo" (PyInt 1) echo new_server).
Proof.
  apply (register_handler_new_version (registered "echo" (PyInt 1) echo new_server)
           "echo" (PyInt 2) (KInt 2) {[KInt 1 := echo]} shout);
    by_evaluation.
Defined.

(** ** More on the dispatcher *)

Lemma consumers_app (self : Server.t) (channel : list pika.call) (calls : list pika.call) :
  Server._channel self = (channel ++ calls)%list ->
  Server.consumers self =
  (omap (fun c => match c with pika.basic_consume q => Some q | _ => None end) channel ++
   omap (fun c => match c with pika.basic_consume q => Some q | _ => None end) calls)%list.
Proof. intros Hc. unfold Server.consumers. now rewrite Hc, omap_app. Qed.

Lemma _dispatcher_frame (self : Server.t) (method_name raw_body : string)
    (meth : pika.Deliver) (props : pika.BasicProperties) :
  let out := Server._dispatcher method_name meth props raw_body self in
  Server._queues (snd out) = Server._queues self
  /\ Server._serializer (snd out) = Server._serializer self
  /\ Server._compressor (snd out) = Server._compressor self
  /\ Server.consumers (snd out) = Server.consumers self.
Proof.
  pose proof (_dispatcher_except_frame raw_body) as Hframe.
  unfold Server._dispatcher. unfold mbind, Server.M_bind, Server.get; simpl.
  destruct (Server._dispatcher_try self method_name raw_body) as [resp | lineno ex]; simpl.
  { repeat split. unfold Server.consumers; simpl.
    rewrite <- app_assoc, omap_app; simpl. apply app_nil_r. }
  specialize (Hframe ex self).
  destruct (Server._dispatcher_except raw_body ex self) as [[resp | ex'] self'];
    simpl in *; destruct Hframe as (Hc & Hq & Hs & Hz).
  - repeat split; try assumption. unfold Server.consumers; simpl.
    rewrite <- app_assoc, omap_app, Hc; simpl. apply app_nil_r.
  - repeat split; try assumption. unfold Server.consumers. now rewrite Hc.
Qed.

(** Whatever it is delivered and however it ends, the dispatcher leaves
    the registry, the codec and the consumers of the server as they
    are. *)
Theorem dispatcher_preserves_server (self : Server.t) (method_name raw_body : string)
    (meth : pika.Deliver) (props : pika.BasicProperties) :
  let out := Server._dispatcher method_name meth props raw_body self in
  Server._queues (snd out) = Server._queues self
  /\ Server._serializer (snd out) = Server._serializer self
  /\ Server._compressor (snd out) = Server._compressor self
  /\ Server.consumers (snd out) = Server.consumers self.
Proof.
  pose proof (_dispatcher_except_frame raw_body) as Hframe.
  unfold Server._dispatcher. unfold mbind, Server.M_bind, Server.get; simpl.
  destruct (Server._dispatcher_try self method_name raw_body) as [resp | lineno ex]; simpl.
  { repeat split. unfold Server.consumers; simpl.
    rewrite <- app_assoc, omap_app; simpl. apply app_nil_r. }
  specialize (Hframe ex self).
  destruct (Server._dispatcher_except raw_body ex self) as [[resp | ex'] self'];
    simpl in *; destruct Hframe as (Hc & Hq & Hs & Hz).
  - repeat split; try assumption. unfold Server.consumers; simpl.
    rewrite <- app_assoc, omap_app, Hc; simpl. apply app_nil_r.
  - repeat split; try assumption. unfold Server.consumers. now rewrite Hc.
Qed.

(** The [try] block builds success responses only, and the [except]
    clauses build responses without a value. *)
Lemma _dispatcher_try_done (self : Server.t) (method_name raw_body : string)
    (resp : Response.t) :
  Server._dispatcher_try self method_name raw_body = Server.Done resp ->
  exists v, resp = Response.__init__ v (PyCode SUCCESS) PyNone.
Proof.
  unfold Server._dispatcher_try.
  destruct (Compressor.decompress _ raw_body) as [body | e]; simpl; [| discriminate].
  destruct (Request.loads body _) as [request | e]; simpl; [| discriminate].
  destruct (Server._queues self !! method_name) as [method_versions |]; simpl;
    [| discriminate].
  destruct (py_getitem method_versions _) as [fn | e]; simpl.
  - destruct (py_call_kwargs fn _) as [v | e]; simpl; [| discriminate].
    intros [= <-]. now exists v.
  - destruct (isinstance e KeyError); discriminate.
Qed.

Lemma _dispatcher_except_value (raw_body : string) (ex : exn) (self self' : Server.t)
    (resp : Response.t) :
  Server._dispatcher_except raw_body ex self = (Return resp, self') ->
  Response.value resp = PyNone.
Proof.
  unfold Server._dispatcher_except.
  destruct (isinstance ex DispatchHandlerException).
  { run_server. destruct (py_getattr ex "code"); simpl; [| discriminate].
    now intros [= <- _]. }
  destruct (isinstance ex RemoteExecErrorException).
  { run_server. destruct (py_getattr ex "value"); simpl; [| discriminate].
    destruct (py_getattr ex "details"); simpl; [| discriminate].
    now intros [= <- _]. }
  destruct (isinstance ex Exception); simpl; [| discriminate].
  now intros [= <- _].
Qed.

(** The response a run replied with is the one it logged. *)
Lemma replies_then_acks_same (self : Server.t) (meth : pika.Deliver)
    (props : pika.BasicProperties) (resp resp' : Response.t) (out : result unit * Server.t) :
  replies_then_acks self meth props resp out ->
  replies_then_acks self meth props resp' out ->
  resp = resp'.
Proof. intros (_ & _ & Hlog & _) (_ & _ & Hlog' & _). congruence. Qed.

(** Every reply the dispatcher publishes is either a success response,
    which has no details, or a response without a value. *)
Theorem reply_has_value_or_failure (self : Server.t) (method_name raw_body : string)
    (meth : pika.Deliver) (props : pika.BasicProperties) (resp : Response.t) :
  replies_then_acks self meth props resp
    (Server._dispatcher method_name meth props raw_body self) ->
  (Response.code resp = PyCode SUCCESS /\ Response.details resp = PyNone)
  \/ Response.value resp = PyNone.
Proof.
  intros Hreply.
  destruct (Server._dispatcher_try self method_name raw_body) as [resp0 | lineno ex] eqn:Htry.
  - rewrite (replies_then_acks_same _ _ _ _ _ _ Hreply
               (_dispatcher_done _ _ _ meth props _ Htry)).
    destruct (_dispatcher_try_done _ _ _ _ Htry) as [v ->]. now left.
  - destruct (Server._dispatcher_except raw_body ex self) as [[resp0 | ex'] self'] eqn:Hex.
    + rewrite (replies_then_acks_same _ _ _ _ _ _ Hreply
                 (_dispatcher_caught _ _ _ _ meth props _ _ _ Htry Hex)).
      right. exact (_dispatcher_except_value _ _ _ _ _ Hex).
    + destruct Hreply as (Hret & _).
      rewrite (_dispatcher_escapes _ _ _ _ meth props _ _ _ Htry Hex) in Hret.
      discriminate.
Qed.

Lemma reply_has_value_or_failure_witness :
  (Response.code (Response.__init__ (PyInt 42) (PyCode SUCCESS) PyNone) = PyCode SUCCESS
   /\ Response.details (Response.__init__ (PyInt 42) (PyCode SUCCESS) PyNone) = PyNone)
  \/ Response.value (Response.__init__ (PyInt 42) (PyCode SUCCESS) PyNone) = PyNone.
Proof.
  apply (reply_has_value_or_failure (registered "echo" (PyInt 1) echo new_server)
           "echo" "li1eded1:xi42eee" a_delivery a_caller).
  unfold replies_then_acks. repeat split; by_evaluation.
Defined.

(** A handler that raises [DispatchHandlerException(code)] itself is
    answered with that code, without details. *)
Theorem handler_dispatch_exception_reply (self : Server.t)
    (method_name raw_body body : string) (meth : pika.Deliver)
    (props : pika.BasicProperties) (request : Request.t)
    (method_versions : gmap pykey pyobj) (fn : pyobj) (code : ResponseCodes) :
  Compressor.decompress (Server._compressor self) raw_body = Return body ->
  Request.loads body (Server._serializer self) = Return request ->
  Server._queues self !! method_name = Some method_versions ->
  py_getitem method_versions (Request.version request) = Return fn ->
  py_call_kwargs fn (Request.arguments request) =
    Raise (DispatchHandlerException_init code) ->
  replies_then_acks self meth props (Response.__init__ PyNone (PyCode code) PyNone)
    (Server._dispatcher method_name meth props raw_body self).
Proof.
  intros Hz Hl Hq Hv Hcall.
  destruct (_dispatcher_except_dispatch raw_body code self) as [self' Hex].
  refine (_dispatcher_caught self self' _ _ _ _ 54 _ _ _ Hex).
  rewrite (_dispatcher_try_call _ _ _ _ _ _ _ Hz Hl Hq Hv). now rewrite Hcall.
Qed.

Lemma handler_dispatch_exception_reply_witness :
  replies_then_acks (registered "forbid" (PyInt 1) forbid new_server) a_delivery a_caller
    (Response.__init__ PyNone (PyCode VERSION_NOT_FOUND) PyNone)
    (Server._dispatcher "forbid" a_delivery a_caller "li1ededee"
       (registered "forbid" (PyInt 1) forbid new_server)).
Proof.
  apply (handler_dispatch_exception_reply _ "forbid" "li1ededee" "li1ededee"
           a_delivery a_caller (Request.__init__ (PyInt 1) (PyDict []) (PyDict []))
           {[KInt 1 := forbid]} forbid VERSION_NOT_FOUND);
    by_evaluation.
Defined.



(** A request whose version is a list or a dict cannot be looked up: for a
    registered method the reply is [UNEXPECTED_DISPATCH_EXCEPTION] with the
    [TypeError] of the lookup, not [VERSION_NOT_FOUND]. *)
Theorem unhashable_version_is_unexpected (self : Server.t)
    (method_name raw_body body : string) (meth : pika.Deliver)
    (props : pika.BasicProperties) (request : Request.t)
    (method_versions : gmap pykey pyobj) :
  Compressor.decompress (Server._compressor self) raw_body = Return body ->
  Request.loads body (Server._serializer self) = Return request ->
  Server._queues self !! method_name = Some method_versions ->
  py_hash (Request.version request) = None ->
  replies_then_acks self meth props
    (Response.__init__ PyNone (PyCode UNEXPECTED_DISPATCH_EXCEPTION)
       (PyStr ("unhashable type: '" +:+ type_name (Request.version request) +:+ "'")))
    (Server._dispatcher method_name meth props raw_body self).
Proof.
  intros Hz Hl Hq Hhash.
  set (ex := builtin_error TypeError
               ("unhashable type: '" +:+ type_name (Request.version request) +:+ "'")).
  destruct (_dispatcher_except_other raw_body ex self eq_refl eq_refl) as [self' Hex].
  refine (_dispatcher_caught self self' _ _ _ _ 50 ex _ _ Hex).
  unfold Server._dispatcher_try. rewrite Hz; simpl. rewrite Hl; simpl. rewrite Hq; simpl.
  unfold py_getitem. now rewrite Hhash.
Qed.

Lemma unhashable_version_is_unexpected_witness :
  replies_then_acks (registered "echo" (PyInt 1) echo new_server) a_delivery a_caller
    (Response.__init__ PyNone (PyCode UNEXPECTED_DISPATCH_EXCEPTION)
       (PyStr "unhashable type: 'dict'"))
    (Server._dispatcher "echo" a_delivery a_caller "ldededee"
       (registered "echo" (PyInt 1) echo new_server)).
Proof.
  apply (unhashable_version_is_unexpected (registered "echo" (PyInt 1) echo new_server)
           "echo" "ldededee" "ldededee" a_delivery a_caller
           (Request.__init__ (PyDict []) (PyDict []) (PyDict [])) {[KInt 1 := echo]});
    by_evaluation.
Defined.

Lemma decompress_failure_reply_witness :
  replies_then_acks
    (registered "echo" (PyInt 1) echo (Server.__init__ 1 BencodeSerializer MarkCompressor))
    a_delivery a_caller
    (Response.__init__ PyNone (PyCode UNEXPECTED_DISPATCH_EXCEPTION) (PyStr "not compressed"))
    (Server._dispatcher "echo" a_delivery a_caller "li1eded1:xi42eee"
       (registered "echo" (PyInt 1) echo
          (Server.__init__ 1 BencodeSerializer MarkCompressor))).
Proof.
  apply (decompress_failure_reply
           (registered "echo" (PyInt 1) echo
              (Server.__init__ 1 BencodeSerializer MarkCompressor))
           "echo" "li1eded1:xi42eee" a_delivery a_caller
           (builtin_error ValueError "not compressed"));
    by_evaluation.
Defined.

Lemma exec_error_with_attributes_witness :
  replies_then_acks (registered "decline" (PyInt 1) decline new_server) a_delivery a_caller
    (Response.__init__ PyNone (PyInt 7) (PyStr "busy"))
    (Server._dispatcher "decline" a_delivery a_caller "li1ededee"
       (registered "decline" (PyInt 1) decline new_server)).
Proof.
  apply (exec_error_with_attributes (registered "decline" (PyInt 1) decline new_server)
           "decline" "li1ededee" a_delivery a_caller 54
           {| exc_type := RemoteExecErrorException;
              exc_args := [PyStr "busy"];
              exc_dict := [("_details", PyStr "busy"); ("value", PyInt 7);
                           ("details", PyStr "busy")] |});
    by_evaluation.
Defined.

(** ** The consuming loop *)

Lemma run_nil (self : Server.t) : Server.run [] self = (Return tt, self).
Proof. reflexivity. Qed.

Lemma run_cons (d : Server.delivery) (rest : list Server.delivery) (self : Server.t) :
  Server.run (d :: rest) self =
  match deliver d self with
  | (Return _, self') => Server.run rest self'
  | (Raise ex, self') => (Raise ex, self')
  end.
Proof.
  unfold Server.run, deliver; simpl.
  unfold mbind, Server.M_bind, Server.get; simpl.
  destruct (bool_decide _); simpl; [| reflexivity].
  now destruct (Server._dispatcher _ _ _ _ self) as [[[] | ex] self'].
Qed.

Lemma deliver_frame (d : Server.delivery) (self : Server.t) :
  Server._queues (snd (deliver d self)) = Server._queues self
  /\ Server._serializer (snd (deliver d self)) = Server._serializer self
  /\ Server._compressor (snd (deliver d self)) = Server._compressor self
  /\ Server.consumers (snd (deliver d self)) = Server.consumers self.
Proof.
  unfold deliver. destruct (bool_decide _); [apply _dispatcher_frame | auto].
Qed.

Lemma run_frame (deliveries : list Server.delivery) (self : Server.t) :
  Server._queues (snd (Server.run deliveries self)) = Server._queues self
  /\ Server._serializer (snd (Server.run deliveries self)) = Server._serializer self
  /\ Server._compressor (snd (Server.run deliveries self)) = Server._compressor self
  /\ Server.consumers (snd (Server.run deliveries self)) = Server.consumers self.
Proof.
  revert self. induction deliveries as [| d rest IH]; intros self; [now rewrite run_nil |].
  rewrite run_cons. pose proof (deliver_frame d self) as Hd.
  destruct (deliver d self) as [[[] | ex] self']; simpl in Hd; [| exact Hd].
  destruct (IH self') as (Hq & Hs & Hz & Hc), Hd as (Hq' & Hs' & Hz' & Hc').
  repeat split; congruence.
Qed.

(** However many deliveries it consumes and however it ends, [run] leaves
    the registry, the codec and the consumers as they are: handlers are
    only read while messages are dispatched. *)
Theorem run_preserves_server (deliveries : list Server.delivery) (self : Server.t) :
  Server._queues (snd (Server.run deliveries self)) = Server._queues self
  /\ Server._serializer (snd (Server.run deliveries self)) = Server._serializer self
  /\ Server._compressor (snd (Server.run deliveries self)) = Server._compressor self
  /\ Server.consumers (snd (Server.run deliveries self)) = Server.consumers self.
Proof.
  revert self. induction deliveries as [| d rest IH]; intros self; [now rewrite run_nil |].
  rewrite run_cons. pose proof (deliver_frame d self) as Hd.
  destruct (deliver d self) as [[[] | ex] self']; simpl in Hd; [| exact Hd].
  destruct (IH self') as (Hq & Hs & Hz & Hc), Hd as (Hq' & Hs' & Hz' & Hc').
  repeat split; congruence.
Qed.

Lemma answer_same_codec (self self' : Server.t) (d : Server.delivery) (resp : Response.t) :
  Server._serializer self' = Server._serializer self ->
  Server._compressor self' = Server._compressor self ->
  answer self' d resp = answer self d resp.
Proof. intros Hs Hz. unfold answer, reply_body. now rewrite Hs, Hz. Qed.

Lemma answers_same_codec (self self' : Server.t) (deliveries : list Server.delivery)
    (resps : list Response.t) :
  Server._serializer self' = Server._serializer self ->
  Server._compressor self' = Server._compressor self ->
  zip_with (answer self') deliveries resps = zip_with (answer self) deliveries resps.
Proof.
  intros Hs Hz. revert resps.
  induction deliveries as [| d rest IH]; intros [| r resps]; try reflexivity.
  change (answer self' d r :: zip_with (answer self') rest resps =
          answer self d r :: zip_with (answer self) rest resps).
  now rewrite (answer_same_codec self self' d r Hs Hz), IH.
Qed.

(** When [run] returns, every delivery from a bound queue has been
    answered, in the order of the deliveries: the channel has been called
    for one publication and one acknowledgement per delivery, and for
    nothing else. *)
Theorem run_answers_in_order (deliveries : list Server.delivery) (self : Server.t) :
  fst (Server.run deliveries self) = Return tt ->
  Forall (fun d => Server.queue d ∈ Server.consumers self) deliveries ->
  exists resps,
    List.length resps = List.length deliveries
    /\ Server._channel (snd (Server.run deliveries self)) =
       (Server._channel self ++ List.concat (zip_with (answer self) deliveries resps))%list.
Proof.
  revert self. induction deliveries as [| d rest IH]; intros self Hret Hbound.
  { exists []. rewrite run_nil; simpl. now rewrite app_nil_r. }
  apply Forall_cons in Hbound as [Hd Hrest].
  rewrite run_cons in *. pose proof (deliver_frame d self) as (_ & Hs & Hz & Hc).
  unfold deliver in *. rewrite bool_decide_eq_true_2 in * by exact Hd.
  destruct (_dispatcher_outcomes self (Server.queue d) (Server.raw_body d)
              (Server.meth d) (Server.props d))
    as [(resp & Hok & Hchan & _) | (? & ? & ex' & _ & _ & _ & Hraise & _)].
  - destruct (Server._dispatcher _ _ _ _ self) as [[[] | ex] self']; simpl in *;
      [| discriminate].
    destruct (IH self' Hret) as (resps & Hlen & Hchan').
    { rewrite Hc. exact Hrest. }
    exists (resp :: resps). split; [simpl; now rewrite Hlen |].
    rewrite Hchan', Hchan, (answers_same_codec self self' rest resps Hs Hz).
    now rewrite <- app_assoc.
  - destruct (Server._dispatcher _ _ _ _ self) as [[[] | ex] self']; simpl in *;
      discriminate.
Qed.

Lemma run_answers_in_order_witness :
  exists resps,
    List.length resps = 2
    /\ Server._channel
         (snd (Server.run
                 [{| Server.queue := "echo"; Server.meth := a_delivery;
                     Server.props := a_caller; Server.raw_body := "li1eded1:xi42eee" |};
                  {| Server.queue := "echo"; Server.meth := {| pika.delivery_tag := 8 |};
                     Server.props := a_caller; Server.raw_body := "not-a-valid-payload" |}]
                 (registered "echo" (PyInt 1) echo new_server))) =
       (Server._channel (registered "echo" (PyInt 1) echo new_server) ++
        List.concat (zip_with (answer (registered "echo" (PyInt 1) echo new_server))
                  [{| Server.queue := "echo"; Server.meth := a_delivery;
                      Server.props := a_caller; Server.raw_body := "li1eded1:xi42eee" |};
                   {| Server.queue := "echo"; Server.meth := {| pika.delivery_tag := 8 |};
                      Server.props := a_caller; Server.raw_body := "not-a-valid-payload" |}]
                  resps))%list.
Proof.
  apply (run_answers_in_order
           [{| Server.queue := "echo"; Server.meth := a_delivery;
               Server.props := a_caller; Server.raw_body := "li1eded1:xi42eee" |};
            {| Server.queue := "echo"; Server.meth := {| pika.delivery_tag := 8 |};
               Server.props := a_caller; Server.raw_body := "not-a-valid-payload" |}]
           (registered "echo" (PyInt 1) echo new_server)).
  - by_evaluation.
  - repeat (constructor; [vm_compute; repeat constructor |]). constructor.
Defined.

(** ** The life of a server *)

Lemma bindings_init (prefetch_count : Z) (serializer : Serializer.t)
    (compressor : Compressor.t) :
  bindings_match_registry (Server.__init__ prefetch_count serializer compressor).
Proof.
  split; [constructor |]. intros q; simpl. rewrite lookup_empty. split.
  - intros Hin. inversion Hin.
  - intros [x Hx]. discriminate.
Qed.

Lemma bindings_same (self self' : Server.t) :
  Server._queues self' = Server._queues self ->
  Server.consumers self' = Server.consumers self ->
  bindings_match_registry self ->
  bindings_match_registry self'.
Proof. unfold bindings_match_registry. intros -> ->. auto. Qed.

Lemma bindings_register (method_name : string) (version : pyval) (fn : pyobj)
    (self : Server.t) :
  bindings_match_registry self ->
  bindings_match_registry (snd (Server.register_handler method_name version fn self)).
Proof.
  intros [Hnodup Hiff].
  destruct (register_handler_cases method_name version fn self)
    as (_ & _ & [(ex & _ & Hq & Hc) | [(key & _ & Hnone & _ & Hq & Hc)
                                      | (key & mv & _ & Hsome & _ & _ & Hq & Hc)]]).
  - apply (bindings_same self); [exact Hq | | now split].
    unfold Server.consumers. now rewrite Hc.
  - apply consumers_app in Hc. simpl in Hc. fold (Server.consumers self) in Hc.
    unfold bindings_match_registry. rewrite Hc, Hq. split.
    + apply NoDup_app. repeat split; [exact Hnodup | | apply NoDup_singleton].
      intros q Hin ->%list_elem_of_singleton.
      apply Hiff in Hin as [x Hx]. congruence.
    + intros q. rewrite elem_of_app, list_elem_of_singleton, Hiff.
      destruct (decide (method_name = q)) as [<- | Hne].
      * rewrite lookup_insert_eq. split; eauto.
      * rewrite lookup_insert_ne by exact Hne. split; [intros [? | ?] | ]; auto; congruence.
  - apply (bindings_same {| Server._serializer := Server._serializer self;
                            Server._compressor := Server._compressor self;
                            Server._channel := Server._channel self;
                            Server._queues := Server._queues (snd (Server.register_handler
                                                method_name version fn self));
                            Server.logger := Server.logger self |});
      [reflexivity | unfold Server.consumers; now rewrite Hc |].
    split; [exact Hnodup |]. intros q; simpl. rewrite Hq, Hiff.
    destruct (decide (method_name = q)) as [<- | Hne].
    + rewrite lookup_insert_eq, Hsome. split; eauto.
    + now rewrite lookup_insert_ne.
Qed.

Lemma bindings_perform (self : Server.t) (a : action) :
  bindings_match_registry self -> bindings_match_registry (perform self a).
Proof.
  destruct a as [method_name version fn | deliveries]; simpl.
  - apply bindings_register.
  - destruct (run_frame deliveries self) as (Hq & _ & _ & Hc).
    now apply bindings_same.
Qed.

Lemma bindings_after (actions : list action) (self : Server.t) :
  bindings_match_registry self -> bindings_match_registry (after actions self).
Proof.
  unfold after. revert self.
  induction actions as [| a actions IH]; intros self Hself; [exact Hself |].
  simpl. apply IH. now apply bindings_perform.
Qed.

(** At every moment of a server's life, each registered method name has
    exactly one consumer bound to its queue, and no other queue has one:
    one binding per method name, shared by all of its versions. *)
Theorem bindings_always_match_registry (prefetch_count : Z) (serializer : Serializer.t)
    (compressor : Compressor.t) (actions : list action) :
  bindings_match_registry
    (after actions (Server.__init__ prefetch_count serializer compressor)).
Proof.
  unfold after.
  generalize (bindings_init prefetch_count serializer compressor).
  generalize (Server.__init__ prefetch_count serializer compressor).
  induction actions as [| a actions IH]; intros self Hself; [exact Hself |].
  simpl. apply IH. now apply bindings_perform.
Qed.

Lemma _dispatcher_try_line_46 (self : Server.t) (method_name raw_body : string) (ex : exn) :
  Server._dispatcher_try self method_name raw_body = Server.RaisedAt 46 ex ->
  Server._queues self !! method_name = None.
Proof.
  unfold Server._dispatcher_try.
  destruct (Compressor.decompress _ raw_body) as [body | e]; simpl; [| discriminate].
  destruct (Request.loads body _) as [request | e]; simpl; [| discriminate].
  destruct (Server._queues self !! method_name) as [method_versions |]; simpl;
    [| reflexivity].
  destruct (py_getitem method_versions _) as [fn | e]; simpl.
  - destruct (py_call_kwargs fn _); simpl; discriminate.
  - destruct (isinstance e KeyError); discriminate.
Qed.

(** In the life of a server, a dispatcher that a queue is bound to always
    finds its method name in the registry: the [METHOD_NOT_FOUND] raise of
    line 46 is never taken for a delivery from a bound queue. *)
Theorem bound_method_is_always_found (prefetch_count : Z) (serializer : Serializer.t)
    (compressor : Compressor.t) (actions : list action) (q raw_body : string) (ex : exn) :
  q ∈ Server.consumers (after actions (Server.__init__ prefetch_count serializer compressor)) ->
  Server._dispatcher_try
    (after actions (Server.__init__ prefetch_count serializer compressor)) q raw_body <>
  Server.RaisedAt 46 ex.
Proof.
  intros Hbound Hraised. apply _dispatcher_try_line_46 in Hraised.
  destruct (bindings_after actions _ (bindings_init prefetch_count serializer compressor))
    as [_ Hiff].
  apply Hiff in Hbound as [x Hx]. congruence.
Qed.

Lemma bound_method_is_always_found_witness :
  Server._dispatcher_try
    (after [Register "echo" (PyInt 1) echo; Register "echo" (PyInt 1) shout]
       (Server.__init__ 1 BencodeSerializer NullCompressor))
    "echo" "li2ededee" <>
  Server.RaisedAt 46 (DispatchHandlerException_init METHOD_NOT_FOUND).
Proof.
  apply (bound_method_is_always_found 1 BencodeSerializer NullCompressor
           [Register "echo" (PyInt 1) echo; Register "echo" (PyInt 1) shout]
           "echo" "li2ededee").
  vm_compute. repeat constructor.
Defined.

(** Once registered, a handler stays the handler of its method name and
    version for the rest of the server's life, whatever is registered or
    consumed afterwards. *)
Theorem handlers_are_permanent (actions : list action) (self : Server.t)
    (method_name : string) (key : pykey) (fn : pyobj) :
  handler_of self method_name key = Some fn ->
  handler_of (after actions self) method_name key = Some fn.
Proof.
  unfold after. revert self.
  induction actions as [| a actions IH]; intros self Hheld; [exact Hheld |].
  simpl. apply IH. destruct a as [method_name' version fn' | deliveries]; simpl.
  - now apply register_handler_keeps_handlers.
  - unfold handler_of in *. destruct (run_frame deliveries self) as (-> & _). exact Hheld.
Qed.

Lemma handlers_are_permanent_witness :
  handler_of
    (after [Register "echo" (PyInt 1) shout;
            Run [{| Server.queue := "echo"; Server.meth := a_delivery;
                    Server.props := a_caller; Server.raw_body := "li1eded1:xi42eee" |}];
            Register "echo" (PyBool true) shout]
       (registered "echo" (PyInt 1) echo new_server))
    "echo" (KInt 1) = Some echo.
Proof.
  apply (handlers_are_permanent
           [Register "echo" (PyInt 1) shout;
            Run [{| Server.queue := "echo"; Server.meth := a_delivery;
                    Server.props := a_caller; Server.raw_body := "li1eded1:xi42eee" |}];
            Register "echo" (PyBool true) shout]
           (registered "echo" (PyInt 1) echo new_server) "echo" (KInt 1) echo).
  by_evaluation.
Defined.
